(** * The SMPP transport worker of vumi, embedded and verified

    Source: [vumi/transports/smpp/transport.py].

    The worker ([SmppTransport]) is embedded as a state-and-exception monad
    over a record holding what the Python object holds: the Redis
    sub-manager, the [throttled] flag and the static configuration.  Every
    call the worker makes on a collaborator (the bus publishers, the
    connector pause and resume, the logger, the reactor's [callLater], the
    ESME client) is appended to a trace, so that "publishes", "pauses once"
    and "logs and discards" are statements about that trace.

    [@inlineCallbacks] bodies are sequenced at their [yield]s: one handler
    runs from start to end without another handler in between. *)

From Stdlib Require Import ZArith String List Decimal DecimalString Lia.
From Stdlib Require DecimalPos DecimalZ.
From Stdlib Require QArith.
From stdpp Require Import base option gmap strings list.

Open Scope string_scope.
Open Scope list_scope.

(** ** Python values *)

(** The handlers only ever see [None] and strings in the positions where
    the code tests truthiness or uses [dict.get]. *)
Inductive pyval :=
| PyNone
| PyStr (s : string).

#[global] Instance pyval_eq_dec : EqDecision pyval.
Proof. solve_decision. Defined.

(** Python truthiness: [None] and the empty string are false. *)
Definition truthy (v : pyval) : bool :=
match v with
| PyNone => false
| PyStr s => negb (String.eqb s "")
end.

(** [a or b]. *)
Definition py_or (a b : pyval) : pyval := if truthy a then a else b.

(** What [redis.get] hands back: [None] for a missing key. *)
Definition of_get (o : option string) : pyval :=
match o with
| None => PyNone
| Some s => PyStr s
end.

(** [x in [a, b, ...]] on strings: a left-to-right comparison with [==]. *)
Definition py_in (x : string) (l : list string) : bool :=
existsb (String.eqb x) l.

(** [str(n)] for a Python int. *)
Definition str (n : Z) : string := NilZero.string_of_int (Z.to_int n).

(** ** Messages *)

(** Modelled from the spec: the session constants of [TransportUserMessage]
    ([vumi.message], outside this module), which the spec names NEW, RESUME
    and CLOSE; [SESSION_NONE] is the value of a message outside a session. *)
Inductive session_event_t :=
| SESSION_NONE
| SESSION_NEW
| SESSION_RESUME
| SESSION_CLOSE.

#[global] Instance session_event_t_eq_dec : EqDecision session_event_t.
Proof. solve_decision. Defined.

(** The payload of an outbound bus message, with the keys [send_smpp] and
    [_submit_outbound_message] read. *)
Record Payload := mkPayload {
  message_id : string;
  to_addr : string;
  from_addr : string;
  content : string;
  transport_type : string;
  session_event : session_event_t;
  transport_metadata : gmap string pyval
}.

Record Message := mkMessage { payload : Payload }.

(** The dict [deliver_sm] builds and passes to [publish_message] as keyword
    arguments.  The key ['session_event'] is only set on the ussd path. *)
Record inbound_message := mkInbound {
  in_message_id : string;
  in_to_addr : string;
  in_from_addr : string;
  in_content : string;
  in_transport_type : string;
  in_transport_metadata : gmap string pyval;
  in_session_event : option session_event_t
}.

(** [FailureMessage(message=..., failure_code=..., reason=...)]. *)
Record FailureMessage := mkFailure {
  fm_message : Payload;
  fm_failure_code : pyval;
  fm_reason : pyval
}.

(** The groups of [DELIVERY_REPORT_REGEX]: the dict that arrives as
    [kwargs['delivery_report']]. *)
Record delivery_report_dict := mkReport {
  dr_id : string;
  dr_sub : string;
  dr_dlvrd : string;
  dr_submit_date : string;
  dr_done_date : string;
  dr_stat : string;
  dr_err : string;
  dr_text : string
}.

Record datetime := mkDatetime {
  dt_year : Z; dt_month : Z; dt_day : Z;
  dt_hour : Z; dt_minute : Z; dt_second : Z
}.

(** [{"message": ..., "date": ...}] of [delivery_report]. *)
Record report_metadata := mkReportMetadata {
  rm_message : delivery_report_dict;
  rm_date : datetime
}.

(** The keyword arguments of [esme_client.submit_sm]. *)
Record submit_sm_args := mkSubmitSm {
  short_message : string;
  destination_addr : string;
  source_addr : pyval;
  message_type : string;
  continue_session : bool;
  session_info : pyval
}.

(** ** Keyword arguments of the callbacks *)

Record submit_sm_resp_kwargs := mkResp {
  resp_message_id : string;
  resp_sequence_number : Z;
  resp_command_status : pyval
}.

(** The three keys [deliver_sm] reads with [kwargs.get] or inside the ussd
    branch are optional: [None] is an absent key. *)
Record deliver_sm_kwargs := mkDeliver {
  dk_message_id : string;
  dk_destination_addr : string;
  dk_source_addr : string;
  dk_short_message : string;
  dk_message_type : option string;
  dk_session_event : option string;
  dk_session_info : option string
}.

(** ** Configuration *)

(** [OPERATOR_PREFIX] is a nested dict from prefixes to network names. *)
#[warnings="-register-all"]
Inductive prefix_tree :=
| Network (name : string)
| Prefixes (m : list (string * prefix_tree)).

Record SmppTransportConfig := mkConfig {
  third_party_id_expiry : Z;
  throttle_delay : QArith_base.Q;
  send_long_messages : bool;
  COUNTRY_CODE : string;
  OPERATOR_PREFIX : list (string * prefix_tree);
  OPERATOR_NUMBER : gmap string string
}.

(** The defaults the config class declares for these fields. *)
Definition default_config : SmppTransportConfig :=
{| third_party_id_expiry := 60 * 60 * 24 * 7;
   throttle_delay := QArith_base.Qmake 1 10;
   send_long_messages := false;
   COUNTRY_CODE := "";
   OPERATOR_PREFIX := [];
   OPERATOR_NUMBER := ∅ |}.

(** ** The trace of calls on collaborators *)

Inductive log_level := DEBUG | MSG | WARNING | ERR.

(** What is interpolated into a log line, kept unformatted. *)
Inductive log_arg :=
| arg_str (s : string)
| arg_int (n : Z)
| arg_val (v : pyval)
| arg_message (m : Message)
| arg_inbound (m : inbound_message).

(** The one function this module hands to [callLater]. *)
Inductive callback :=
| cb_submit_outbound_message (m : Message).

Inductive event :=
| log (lvl : log_level) (fmt : string) (args : list log_arg)
| publish_ack (user_message_id sent_message_id : string)
| publish_nack (user_message_id : string) (reason : pyval)
| failure_publish (f : FailureMessage)
| publish_delivery_report (user_message_id : string)
    (delivery_status : string) (metadata : report_metadata)
| publish_message (m : inbound_message)
| pause_connectors
| unpause_connectors
| callLater (delay : QArith_base.Q) (f : callback)
| esme_submit_sm (args : submit_sm_args)
| factory_stopTrying
| transport_loseConnection
| redis_close.

(** ** The worker *)

(** Modelled from the spec: the key/value store behind [TxRedisManager]
    ([vumi.persist.txredis_manager], outside this module), with the
    interface the spec gives it: GET, SET, DELETE and EXPIRE on string keys
    and values.  [ttl] records the seconds of the last EXPIRE of a key. *)
Record RedisManager := mkRedis {
  kv : gmap string string;
  ttl : gmap string Z
}.

Record SmppTransport := mkTransport {
  transport_name : string;
  config : SmppTransportConfig;
  redis : RedisManager;
  throttled : bool;
  has_factory : bool;
  trace : list event
}.

Inductive exn :=
| KeyError (key : string)
| ValueError (what : string).

Inductive result (A : Type) :=
| Ok (a : A)
| Raise (e : exn).

Arguments Ok {A} a.
Arguments Raise {A} e.

(** A handler: it may raise, and what it did to the worker before raising
    stays done. *)
Definition M (A : Type) : Type := SmppTransport → result A * SmppTransport.

#[global] Instance M_ret : MRet M := λ A a w, (Ok a, w).

#[global] Instance M_bind : MBind M := λ A B f m w,
  match m w with
  | (Ok a, w') => f a w'
  | (Raise e, w') => (Raise e, w')
  end.

Definition raise {A} (e : exn) : M A := λ w, (Raise e, w).

Definition exec {A} (m : M A) (w : SmppTransport) : SmppTransport := snd (m w).

(** The worker after a handler step: a new store, a new flag and the calls
    made, appended to the trace. *)
Definition upd (w : SmppTransport) (r : RedisManager) (t : bool)
  (es : list event) : SmppTransport :=
  {| transport_name := transport_name w; config := config w;
     redis := r; throttled := t;
     has_factory := has_factory w;
     trace := trace w ++ es |}.

Definition emit (e : event) : M unit := λ w,
  (Ok tt, upd w (redis w) (throttled w) [e]).

Definition get_static_config : M SmppTransportConfig := λ w, (Ok (config w), w).

Definition get_throttled : M bool := λ w, (Ok (throttled w), w).

Definition set_throttled (b : bool) : M unit := λ w,
  (Ok tt, upd w (redis w) b []).

Definition with_redis (f : RedisManager → RedisManager) : M unit := λ w,
  (Ok tt, upd w (f (redis w)) (throttled w) []).

Definition redis_get (key : string) : M (option string) := λ w,
  (Ok (kv (redis w) !! key), w).

(** SET replaces the value and, as in Redis, drops a pending expiry. *)
Definition store_set (key value : string) (r : RedisManager) : RedisManager :=
  {| kv := <[key := value]> (kv r); ttl := delete key (ttl r) |}.

Definition store_delete (key : string) (r : RedisManager) : RedisManager :=
  {| kv := delete key (kv r); ttl := delete key (ttl r) |}.

(** EXPIRE only applies to a key that exists. *)
Definition store_expire (key : string) (seconds : Z) (r : RedisManager)
  : RedisManager :=
  match kv r !! key with
  | Some _ => {| kv := kv r; ttl := <[key := seconds]> (ttl r) |}
  | None => r
  end.

Definition redis_set (key value : string) : M unit :=
  with_redis (store_set key value).

Definition redis_delete (key : string) : M unit :=
  with_redis (store_delete key).

Definition redis_expire (key : string) (seconds : Z) : M unit :=
  with_redis (store_expire key seconds).

(** Modelled from the spec: the ESME session
    ([vumi.transports.smpp.clientserver.client], outside this module), which
    is handed the Redis manager of the worker.  "Sequence allocation: a
    1..2^31−1 counter per bind, starting at 1, wrapping on overflow.  The
    counter lives in the KVStore under the prefix".  [submit_sm] "returns the
    allocated sequence_number synchronously", and "messages longer than 254
    octets are packed into the message_payload TLV when send_long_messages
    is true; otherwise the oversize is rejected".  The spec names neither the
    key of the counter nor the error of a rejected submit: the counter is
    kept in decimal under [sequence_counter_key], and a rejected submit
    raises [ValueError] and allocates nothing. *)
Definition sequence_counter_key : string := "smpp_last_sequence_number".

(** The last sequence number handed out, as the store has it: 0 before the
    first one. *)
Definition stored_sequence (r : RedisManager) : Z :=
  match kv r !! sequence_counter_key with
  | Some s =>
      match NilZero.int_of_string s with
      | Some d => Z.of_int d
      | None => 0%Z
      end
  | None => 0%Z
  end.

Arguments stored_sequence : simpl never.

Definition esme_sequence (w : SmppTransport) : Z := stored_sequence (redis w).

Definition next_sequence_number (last : Z) : Z :=
  if decide (1 ≤ last + 1 ≤ 2 ^ 31 - 1)%Z then (last + 1)%Z else 1%Z.

Definition oversize (cfg : SmppTransportConfig) (short_message : string) : bool :=
  (254 <? String.length short_message)%nat && negb (send_long_messages cfg).

Arguments oversize : simpl never.

Definition esme_client_submit_sm (args : submit_sm_args) : M Z :=
  emit (esme_submit_sm args);;
  config ← get_static_config;
  if oversize config (short_message args)
  then raise (ValueError "short_message")
  else
    last ← (λ w, (Ok (esme_sequence w), w));
    let sequence_number := next_sequence_number last in
    redis_set sequence_counter_key (str sequence_number);;
    mret sequence_number.

(** [d[key]] on a dict. *)
Definition py_getitem {V} (d : gmap string V) (key : string) : M V :=
  match d !! key with
  | Some v => mret v
  | None => raise (KeyError key)
  end.

(** [kwargs[name]] for an optional keyword argument. *)
Definition kwarg {V} (name : string) (o : option V) : M V :=
  match o with
  | Some v => mret v
  | None => raise (KeyError name)
  end.

(** ** The methods of [SmppTransport] *)

Section Worker.

(** [Message.from_json] ([vumi.message]), [datetime.strptime] and
    [vumi.utils.get_operator_number] are not part of this module: the worker
    is verified for any implementation of them.  [strptime] answers [None]
    where Python raises [ValueError]. *)
Variable from_json : string → Message.
Variable strptime : string → string → option datetime.
Variable get_operator_number :
  string → string → list (string * prefix_tree) → gmap string string → pyval.

Definition esme_connected : M unit :=
  emit (log MSG "ESME Connected, adding handlers" []);;
  emit unpause_connectors.

Definition esme_disconnected : M unit :=
  emit (log MSG "ESME Disconnected" []);;
  emit pause_connectors.

Definition teardown_transport : M unit :=
  has ← (λ w, (Ok (has_factory w), w));
  (if has : bool then emit factory_stopTrying;; emit transport_loseConnection
   else mret tt);;
  emit redis_close.

(** *** Redis message storing methods *)

Definition r_message_prefix : string := "message_json".

Definition r_message_key (message_id : string) : string :=
  r_message_prefix +:+ "#" +:+ message_id.

Definition r_get_message_json (message_id : string) : M (option string) :=
  redis_get (r_message_key message_id).

Definition r_get_message (message_id : string) : M (option Message) :=
  json_string ← r_get_message_json message_id;
  if truthy (of_get json_string)
  then mret (from_json <$> json_string)
  else mret None.

Definition r_delete_message (message_id : string) : M unit :=
  redis_delete (r_message_key message_id).

(** *** Redis sequence number storing methods *)

Definition r_get_id_for_sequence (sequence_number : Z) : M (option string) :=
  redis_get (str sequence_number).

Definition r_delete_for_sequence (sequence_number : Z) : M unit :=
  redis_delete (str sequence_number).

Definition r_set_id_for_sequence (sequence_number : Z) (id : string) : M unit :=
  redis_set (str sequence_number) id.

(** *** Redis 3rd party id to vumi id mapping *)

Definition r_third_party_id_key (third_party_id : string) : string :=
  "3rd_party_id#" +:+ third_party_id.

Definition r_get_id_for_third_party_id (third_party_id : string)
  : M (option string) :=
  redis_get (r_third_party_id_key third_party_id).

Definition r_delete_for_third_party_id (third_party_id : string) : M unit :=
  redis_delete (r_third_party_id_key third_party_id).

Definition r_set_id_for_third_party_id (third_party_id id : string) : M unit :=
  config ← get_static_config;
  let rkey := r_third_party_id_key third_party_id in
  redis_set rkey id;;
  redis_expire rkey (third_party_id_expiry config).

(** *** Throttling *)

Definition _start_throttling : M unit :=
  t ← get_throttled;
  if t : bool then mret tt
  else
    emit (log ERR "Throttling outbound messages." []);;
    set_throttled true;;
    emit pause_connectors.

Definition _stop_throttling : M unit :=
  t ← get_throttled;
  if negb t then mret tt
  else
    emit (log ERR "No longer throttling outbound messages." []);;
    set_throttled false;;
    emit unpause_connectors.

(** *** Outbound *)

Definition send_smpp (message : Message) : M Z :=
  emit (log DEBUG "Sending SMPP message: %s" [arg_message message]);;
  let to_addr := to_addr (payload message) in
  let from_addr := from_addr (payload message) in
  let text := content (payload message) in
  let continue_session :=
    bool_decide (session_event (payload message) ≠ SESSION_CLOSE) in
  config ← get_static_config;
  let route := get_operator_number to_addr (COUNTRY_CODE config)
                 (OPERATOR_PREFIX config) (OPERATOR_NUMBER config) in
  (* a [string] is already a byte string: [encode('utf-8')] and [str] keep it *)
  esme_client_submit_sm
    {| short_message := text;
       destination_addr := to_addr;
       source_addr := py_or route (PyStr from_addr);
       message_type := transport_type (payload message);
       continue_session := continue_session;
       session_info :=
         default PyNone (transport_metadata (payload message) !! "session_info") |}.

Definition _submit_outbound_message (message : Message) : M unit :=
  sequence_number ← send_smpp message;
  r_set_id_for_sequence sequence_number (message_id (payload message)).

(** *** submit_sm_resp *)

Definition submit_sm_success (sent_sms_id transport_msg_id : string) : M unit :=
  r_delete_message sent_sms_id;;
  emit (log DEBUG "Mapping transport_msg_id=%s to sent_sms_id=%s"
          [arg_str transport_msg_id; arg_str sent_sms_id]);;
  emit (log DEBUG "PUBLISHING ACK: (%s -> %s)"
          [arg_str sent_sms_id; arg_str transport_msg_id]);;
  emit (publish_ack sent_sms_id transport_msg_id).

Definition submit_sm_failure (sent_sms_id : string) (reason failure_code : pyval)
  : M unit :=
  error_message ← r_get_message sent_sms_id;
  match error_message with
  | None =>
      emit (log ERR "Could not retrieve failed message:%s" [arg_str sent_sms_id])
  | Some error_message =>
      r_delete_message sent_sms_id;;
      emit (publish_nack sent_sms_id reason);;
      emit (failure_publish
              {| fm_message := payload error_message;
                 fm_failure_code := PyNone;
                 fm_reason := reason |})
  end.

Definition submit_sm_throttled (sent_sms_id : string) : M unit :=
  message ← r_get_message sent_sms_id;
  match message with
  | None =>
      emit (log ERR "Could not retrieve throttled message:%s"
              [arg_str sent_sms_id])
  | Some message =>
      config ← get_static_config;
      emit (callLater (throttle_delay config) (cb_submit_outbound_message message))
  end.

(** [submit_sm_failure] is called with two arguments here, so its
    [failure_code] takes the default [None]. *)
Definition submit_sm_resp (kwargs : submit_sm_resp_kwargs) : M unit :=
  let transport_msg_id := resp_message_id kwargs in
  sent_sms_id ← r_get_id_for_sequence (resp_sequence_number kwargs);
  match sent_sms_id with
  | None =>
      emit (log ERR "Sequence number lookup failed for:%s"
              [arg_int (resp_sequence_number kwargs)])
  | Some sent_sms_id =>
      r_set_id_for_third_party_id transport_msg_id sent_sms_id;;
      r_delete_for_sequence (resp_sequence_number kwargs);;
      let status := resp_command_status kwargs in
      if bool_decide (status = PyStr "ESME_ROK") then
        submit_sm_success sent_sms_id transport_msg_id;;
        _stop_throttling
      else if bool_decide (status = PyStr "ESME_RTHROTTLED") then
        _start_throttling;;
        submit_sm_throttled sent_sms_id
      else
        submit_sm_failure sent_sms_id (py_or status (PyStr "Unspecified")) PyNone;;
        _stop_throttling
  end.

(** *** Delivery reports *)

Definition delivery_status (state : string) : string :=
  if py_in state ["DELIVRD"; "0"] then "delivered"
  else if py_in state ["REJECTD"] then "failed"
  else "pending".

Definition delivery_report (kwargs_delivery_report : delivery_report_dict)
  : M unit :=
  date ← match strptime (dr_done_date kwargs_delivery_report) "%y%m%d%H%M%S" with
         | Some d => mret d
         | None => raise (ValueError (dr_done_date kwargs_delivery_report))
         end;
  let transport_metadata :=
    {| rm_message := kwargs_delivery_report; rm_date := date |} in
  let delivery_status := delivery_status (dr_stat kwargs_delivery_report) in
  message_id ← r_get_id_for_third_party_id (dr_id kwargs_delivery_report);
  match message_id with
  | None =>
      name ← (λ w, (Ok (transport_name w), w));
      emit (log WARNING
              ("Failed to retrieve message id for delivery report." +:+
               " Delivery report from %s discarded.")
              [arg_str name])
  | Some message_id =>
      emit (log MSG "PUBLISHING DELIV REPORT: %s %s"
              [arg_str message_id; arg_str delivery_status]);;
      emit (publish_delivery_report message_id delivery_status transport_metadata)
  end.

(** *** Inbound *)

(** The dict literal [deliver_sm] indexes with [kwargs['session_event']]. *)
Definition session_events : gmap string session_event_t :=
  {[ "new" := SESSION_NEW; "continue" := SESSION_RESUME; "close" := SESSION_CLOSE ]}.

Definition deliver_sm (kwargs : deliver_sm_kwargs) : M unit :=
  let message_type := default "sms" (dk_message_type kwargs) in
  let message :=
    {| in_message_id := dk_message_id kwargs;
       in_to_addr := dk_destination_addr kwargs;
       in_from_addr := dk_source_addr kwargs;
       in_content := dk_short_message kwargs;
       in_transport_type := message_type;
       in_transport_metadata := ∅;
       in_session_event := None |} in
  message ←
    (if String.eqb message_type "ussd" then
       key ← kwarg "session_event" (dk_session_event kwargs);
       session_event ← py_getitem session_events key;
       let session_info := of_get (dk_session_info kwargs) in
       mret {| in_message_id := in_message_id message;
               in_to_addr := in_to_addr message;
               in_from_addr := in_from_addr message;
               in_content := in_content message;
               in_transport_type := in_transport_type message;
               in_transport_metadata :=
                 <["session_info" := session_info]> (in_transport_metadata message);
               in_session_event := Some session_event |}
     else mret message);
  emit (log MSG "PUBLISHING INBOUND: %s" [arg_inbound message]);;
  emit (publish_message message).

End Worker.

(** ** Key schema: the shape of a decimal key *)

Definition is_digit (c : Ascii.ascii) : bool :=
  let n := Ascii.nat_of_ascii c in (48 <=? n)%nat && (n <=? 57)%nat.

Fixpoint all_digits (s : string) : bool :=
  match s with
  | EmptyString => true
  | String c s' => is_digit c && all_digits s'
  end.

(** ** Reading the store and the trace *)

(** What [r_get_message] answers on a store: the decoded body, or [None]
    for a missing or empty one. *)
Definition stored_message (from_json : string → Message) (r : RedisManager)
  (message_id : string) : option Message :=
  let json_string := kv r !! r_message_key message_id in
  if truthy (of_get json_string) then from_json <$> json_string else None.

(** The store once [submit_sm_resp] has resolved a sequence number: the
    third party id is bound and given its expiry, the sequence key is gone. *)
Definition correlated (kwargs : submit_sm_resp_kwargs) (id : string)
  (w : SmppTransport) : RedisManager :=
  let rkey := r_third_party_id_key (resp_message_id kwargs) in
  store_delete (str (resp_sequence_number kwargs))
    (store_expire rkey (third_party_id_expiry (config w))
       (store_set rkey id (redis w))).

Arguments correlated : simpl never.

(** The calls [_start_throttling] and [_stop_throttling] make on a worker. *)
Definition start_calls (w : SmppTransport) : list event :=
  if throttled w then []
  else [log ERR "Throttling outbound messages." []; pause_connectors].

Definition stop_calls (w : SmppTransport) : list event :=
  if throttled w
  then [log ERR "No longer throttling outbound messages." []; unpause_connectors]
  else [].

(** The pause and resume calls of a trace, in order. *)
Definition is_bus_call (e : event) : bool :=
  match e with
  | pause_connectors | unpause_connectors => true
  | _ => false
  end.

Definition bus_calls (es : list event) : list event := List.filter is_bus_call es.

(** A sequence of [submit_sm_resp] callbacks, one after the other. *)
Definition run_resps (from_json : string → Message)
  (resps : list submit_sm_resp_kwargs) (w : SmppTransport) : SmppTransport :=
  foldl (λ w kwargs, exec (submit_sm_resp from_json kwargs) w) w resps.

Definition is_throttled_resp (kwargs : submit_sm_resp_kwargs) : bool :=
  bool_decide (resp_command_status kwargs = PyStr "ESME_RTHROTTLED").

(** Every response of the sequence finds its sequence number in the store
    at the moment it is handled. *)
Fixpoint all_resolve (from_json : string → Message)
  (resps : list submit_sm_resp_kwargs) (w : SmppTransport) : Prop :=
  match resps with
  | [] => True
  | kwargs :: resps' =>
      is_Some (kv (redis w) !! str (resp_sequence_number kwargs)) ∧
      all_resolve from_json resps' (exec (submit_sm_resp from_json kwargs) w)
  end.

(** Edge-triggered throttling in the spec's words: "only the first throttled
    response pauses; only the first success/non-throttled failure after a
    throttled period resumes".  [t] is whether the worker is throttled, the
    list says of each outcome whether it is a throttled one. *)
Fixpoint edge_calls (t : bool) (outcomes : list bool) : list event :=
  match outcomes with
  | [] => []
  | o :: outcomes' =>
      (if o && negb t then [pause_connectors]
       else if negb o && t then [unpause_connectors]
       else []) ++ edge_calls o outcomes'
  end.

(** ** Collaborators for the examples *)

(** Modelled from the spec: the operator-number resolver
    ([vumi.utils.get_operator_number], outside this module), "a pure function
    mapping a destination MSISDN to a source MSISDN override using a
    country-code + prefix → network → source table", where "leading-zero
    normalization substitutes COUNTRY_CODE for a leading 0 before prefix
    lookup". *)
Definition normalize_msisdn (msisdn country_code : string) : string :=
  match msisdn with
  | String c rest =>
      if Ascii.eqb c (Ascii.ascii_of_nat 48) then country_code +:+ rest else msisdn
  | EmptyString => msisdn
  end.

Fixpoint get_operator_name (msisdn : string) (mapping : prefix_tree)
  : option string :=
  match mapping with
  | Network name => Some name
  | Prefixes m =>
      (fix first_match (l : list (string * prefix_tree)) : option string :=
         match l with
         | [] => None
         | (p, sub) :: l' =>
             if String.prefix p msisdn then get_operator_name msisdn sub
             else first_match l'
         end) m
  end.

Definition spec_get_operator_number (msisdn country_code : string)
  (mapping : list (string * prefix_tree)) (numbers : gmap string string) : pyval :=
  match get_operator_name (normalize_msisdn msisdn country_code) (Prefixes mapping) with
  | Some network => of_get (numbers !! network)
  | None => PyNone
  end.

(** A codec for the examples: a body is stored as the message id, and
    decodes to a text message to a fixed destination. *)
Definition example_payload (id : string) : Payload :=
  {| message_id := id; to_addr := "27761234567"; from_addr := "27700000000";
     content := "hi"; transport_type := "sms"; session_event := SESSION_NONE;
     transport_metadata := ∅ |}.

Definition example_from_json (body : string) : Message :=
  mkMessage (example_payload body).

(** A date parser for the examples: it knows one date and refuses the rest. *)
Definition example_strptime (date_string format : string) : option datetime :=
  if String.eqb date_string "130101120500" && String.eqb format "%y%m%d%H%M%S"
  then Some {| dt_year := 2013; dt_month := 1; dt_day := 1;
               dt_hour := 12; dt_minute := 5; dt_second := 0 |}
  else None.

Definition example_worker (entries : list (string * string)) (t : bool)
  : SmppTransport :=
  {| transport_name := "smpp_transport"; config := default_config;
     redis := {| kv := list_to_map entries; ttl := ∅ |};
     throttled := t; has_factory := true; trace := [] |}.

(** ** The outbound path *)

Section Outbound.

(** [Message.to_json] ([vumi.message]) and [get_unacked_count] of the ESME
    client are not part of this module either.  The count is only read, for
    a debug line. *)
Variable to_json : Message → string.
Variable get_unacked_count : SmppTransport → Z.
Variable get_operator_number :
  string → string → list (string * prefix_tree) → gmap string string → pyval.

Definition r_set_message (message : Message) : M unit :=
  let message_id := message_id (payload message) in
  redis_set (r_message_key message_id) (to_json message).

Definition handle_outbound_message (message : Message) : M unit :=
  emit (log DEBUG "Consumed outgoing message %r" [arg_message message]);;
  count ← (λ w, (Ok (get_unacked_count w), w));
  emit (log DEBUG "Unacknowledged message count: %s" [arg_int count]);;
  r_set_message message;;
  _submit_outbound_message get_operator_number message.

(** What the reactor runs when the delay of a [callLater] is over. *)
Definition run_callback (f : callback) : M unit :=
  match f with
  | cb_submit_outbound_message message =>
      _submit_outbound_message get_operator_number message
  end.

End Outbound.

(** The keyword arguments [send_smpp] passes to [submit_sm], read off a
    message and a configuration. *)
Definition submit_sm_args_of
  (get_operator_number :
     string → string → list (string * prefix_tree) → gmap string string → pyval)
  (cfg : SmppTransportConfig) (message : Message) : submit_sm_args :=
  {| short_message := content (payload message);
     destination_addr := to_addr (payload message);
     source_addr :=
       py_or (get_operator_number (to_addr (payload message)) (COUNTRY_CODE cfg)
                (OPERATOR_PREFIX cfg) (OPERATOR_NUMBER cfg))
         (PyStr (from_addr (payload message)));
     message_type := transport_type (payload message);
     continue_session :=
       bool_decide (session_event (payload message) ≠ SESSION_CLOSE);
     session_info :=
       default PyNone (transport_metadata (payload message) !! "session_info") |}.

(** The worker after [_submit_outbound_message]: the client has handed out
    the next sequence number, the counter of the store has moved on and the
    message id is stored under the number. *)
Definition submitted
  (get_operator_number :
     string → string → list (string * prefix_tree) → gmap string string → pyval)
  (message : Message) (r : RedisManager) (w : SmppTransport)
  (es : list event) : SmppTransport :=
  let sequence_number := next_sequence_number (esme_sequence w) in
  upd w
    (store_set (str sequence_number) (message_id (payload message))
       (store_set sequence_counter_key (str sequence_number) r))
    (throttled w)
    (es ++
     [log DEBUG "Sending SMPP message: %s" [arg_message message];
      esme_submit_sm (submit_sm_args_of get_operator_number (config w) message)]).

(** A resolver that knows no operator: it never answers a source number. *)
Definition no_operator_number (msisdn country_code : string)
  (mapping : list (string * prefix_tree)) (numbers : gmap string string) : pyval :=
  PyNone.

(** The codec of the examples, the other way. *)
Definition example_to_json (message : Message) : string :=
  message_id (payload message).

Definition no_unacked (w : SmppTransport) : Z := 0.

(** The three kinds of correlation key. *)
Inductive correlation_key :=
| sequence_key (sequence_number : Z)
| message_key (message_id : string)
| third_party_key (third_party_id : string).

Definition redis_key (k : correlation_key) : string :=
  match k with
  | sequence_key n => str n
  | message_key id => r_message_key id
  | third_party_key id => r_third_party_id_key id
  end.

(** * Properties *)

(** ** Key schema: facts *)

Lemma string_of_uint_all_digits (d : uint) :
  all_digits (NilEmpty.string_of_uint d) = true.
Proof. induction d; cbn; auto. Qed.

Lemma str_shape (n : Z) :
  all_digits (str n) = true ∨ ∃ s, str n = String (Ascii.ascii_of_nat 45) s.
Proof.
  unfold str. destruct (Z.to_int n) as [d | d]; cbn.
  - left. destruct d; try apply (string_of_uint_all_digits (_ _)). reflexivity.
  - right. eauto.
Qed.

Lemma str_ne_third_party_id_key (n : Z) (third_party_id : string) :
  str n ≠ r_third_party_id_key third_party_id.
Proof.
  intros E. destruct (str_shape n) as [D | [s D]]; rewrite E in D.
  - cbn in D. discriminate.
  - cbn in D. discriminate.
Qed.

Lemma str_ne_message_key (n : Z) (message_id : string) :
  str n ≠ r_message_key message_id.
Proof.
  intros E. destruct (str_shape n) as [D | [s D]]; rewrite E in D.
  - cbn in D. discriminate.
  - cbn in D. discriminate.
Qed.

Lemma message_key_ne_third_party_id_key (message_id third_party_id : string) :
  r_message_key message_id ≠ r_third_party_id_key third_party_id.
Proof. cbn. discriminate. Qed.

(** ** Running the monad *)

Lemma upd_upd w r t es r' t' es' :
  upd (upd w r t es) r' t' es' = upd w r' t' (es ++ es').
Proof. unfold upd; cbn. by rewrite app_assoc. Qed.

Lemma upd_id w : upd w (redis w) (throttled w) [] = w.
Proof. destruct w; unfold upd; cbn. by rewrite app_nil_r. Qed.

Ltac unfold_monad :=
  unfold redis_get, redis_set, redis_delete, redis_expire, with_redis,
    get_static_config, get_throttled, set_throttled, emit, raise, kwarg,
    py_getitem, mbind, M_bind, mret, M_ret;
  cbn.

Lemma esme_client_submit_sm_eq args w :
  esme_client_submit_sm args w =
  if oversize (config w) (short_message args)
  then (Raise (ValueError "short_message"),
        upd w (redis w) (throttled w) [esme_submit_sm args])
  else (Ok (next_sequence_number (esme_sequence w)),
        upd w (store_set sequence_counter_key
                 (str (next_sequence_number (esme_sequence w))) (redis w))
          (throttled w) [esme_submit_sm args]).
Proof.
  unfold esme_client_submit_sm. unfold_monad.
  destruct (oversize _ _); [done|]. cbn. by rewrite upd_upd.
Qed.

Lemma send_smpp_eq get_operator_number message w :
  send_smpp get_operator_number message w =
  let es := [log DEBUG "Sending SMPP message: %s" [arg_message message];
             esme_submit_sm
               (submit_sm_args_of get_operator_number (config w) message)] in
  if oversize (config w) (content (payload message))
  then (Raise (ValueError "short_message"), upd w (redis w) (throttled w) es)
  else (Ok (next_sequence_number (esme_sequence w)),
        upd w (store_set sequence_counter_key
                 (str (next_sequence_number (esme_sequence w))) (redis w))
          (throttled w) es).
Proof.
  unfold send_smpp, mbind, M_bind, emit, get_static_config. cbn [fst snd].
  rewrite esme_client_submit_sm_eq. cbn -[upd].
  fold (submit_sm_args_of get_operator_number (config w) message).
  destruct (oversize _ _); by rewrite upd_upd.
Qed.

Lemma start_throttling_eq w :
  _start_throttling w = (Ok tt, upd w (redis w) true (start_calls w)).
Proof.
  unfold _start_throttling, start_calls. unfold_monad.
  destruct (throttled w) eqn:T.
  - by rewrite <- T, upd_id.
  - by rewrite !upd_upd.
Qed.

Lemma stop_throttling_eq w :
  _stop_throttling w = (Ok tt, upd w (redis w) false (stop_calls w)).
Proof.
  unfold _stop_throttling, stop_calls. unfold_monad.
  destruct (throttled w) eqn:T; cbn.
  - by rewrite !upd_upd.
  - by rewrite <- T, upd_id.
Qed.

Lemma r_get_message_eq from_json id w :
  r_get_message from_json id w = (Ok (stored_message from_json (redis w) id), w).
Proof.
  unfold r_get_message, r_get_message_json, stored_message. unfold_monad.
  by destruct (truthy _).
Qed.

Lemma r_set_id_for_third_party_id_eq third_party_id id w :
  r_set_id_for_third_party_id third_party_id id w =
  (Ok tt,
   upd w (store_expire (r_third_party_id_key third_party_id)
            (third_party_id_expiry (config w))
            (store_set (r_third_party_id_key third_party_id) id (redis w)))
     (throttled w) []).
Proof.
  unfold r_set_id_for_third_party_id. unfold_monad. by rewrite upd_upd.
Qed.

Lemma submit_sm_success_eq sent_sms_id transport_msg_id w :
  submit_sm_success sent_sms_id transport_msg_id w =
  (Ok tt,
   upd w (store_delete (r_message_key sent_sms_id) (redis w)) (throttled w)
     [log DEBUG "Mapping transport_msg_id=%s to sent_sms_id=%s"
        [arg_str transport_msg_id; arg_str sent_sms_id];
      log DEBUG "PUBLISHING ACK: (%s -> %s)"
        [arg_str sent_sms_id; arg_str transport_msg_id];
      publish_ack sent_sms_id transport_msg_id]).
Proof.
  unfold submit_sm_success, r_delete_message. unfold_monad.
  by rewrite !upd_upd.
Qed.

Lemma submit_sm_failure_eq from_json sent_sms_id reason failure_code w :
  submit_sm_failure from_json sent_sms_id reason failure_code w =
  (Ok tt,
   match stored_message from_json (redis w) sent_sms_id with
   | None =>
       upd w (redis w) (throttled w)
         [log ERR "Could not retrieve failed message:%s" [arg_str sent_sms_id]]
   | Some error_message =>
       upd w (store_delete (r_message_key sent_sms_id) (redis w)) (throttled w)
         [publish_nack sent_sms_id reason;
          failure_publish {| fm_message := payload error_message;
                             fm_failure_code := PyNone;
                             fm_reason := reason |}]
   end).
Proof.
  unfold submit_sm_failure, mbind, M_bind. rewrite r_get_message_eq.
  destruct (stored_message _ _ _); [|done].
  unfold r_delete_message. unfold_monad. by rewrite !upd_upd.
Qed.

Lemma submit_sm_throttled_eq from_json sent_sms_id w :
  submit_sm_throttled from_json sent_sms_id w =
  (Ok tt,
   upd w (redis w) (throttled w)
     [match stored_message from_json (redis w) sent_sms_id with
      | None =>
          log ERR "Could not retrieve throttled message:%s" [arg_str sent_sms_id]
      | Some message =>
          callLater (throttle_delay (config w)) (cb_submit_outbound_message message)
      end]).
Proof.
  unfold submit_sm_throttled, mbind, M_bind. rewrite r_get_message_eq.
  by destruct (stored_message _ _ _).
Qed.

(** ** [submit_sm_resp], case by case *)

Lemma submit_sm_resp_miss from_json kwargs w :
  kv (redis w) !! str (resp_sequence_number kwargs) = None →
  submit_sm_resp from_json kwargs w =
  (Ok tt,
   upd w (redis w) (throttled w)
     [log ERR "Sequence number lookup failed for:%s"
        [arg_int (resp_sequence_number kwargs)]]).
Proof.
  intros Hmiss. unfold submit_sm_resp, r_get_id_for_sequence. unfold_monad.
  by rewrite Hmiss.
Qed.

Lemma submit_sm_resp_resolved from_json kwargs w id :
  kv (redis w) !! str (resp_sequence_number kwargs) = Some id →
  submit_sm_resp from_json kwargs w =
  (Ok tt,
   let r := correlated kwargs id w in
   let status := resp_command_status kwargs in
   if bool_decide (status = PyStr "ESME_ROK") then
     upd w (store_delete (r_message_key id) r) false
       ([log DEBUG "Mapping transport_msg_id=%s to sent_sms_id=%s"
           [arg_str (resp_message_id kwargs); arg_str id];
         log DEBUG "PUBLISHING ACK: (%s -> %s)"
           [arg_str id; arg_str (resp_message_id kwargs)];
         publish_ack id (resp_message_id kwargs)] ++ stop_calls w)
   else if bool_decide (status = PyStr "ESME_RTHROTTLED") then
     upd w r true
       (start_calls w ++
        [match stored_message from_json r id with
         | None =>
             log ERR "Could not retrieve throttled message:%s" [arg_str id]
         | Some message =>
             callLater (throttle_delay (config w))
               (cb_submit_outbound_message message)
         end])
   else
     match stored_message from_json r id with
     | None =>
         upd w r false
           ([log ERR "Could not retrieve failed message:%s" [arg_str id]]
            ++ stop_calls w)
     | Some error_message =>
         upd w (store_delete (r_message_key id) r) false
           ([publish_nack id (py_or status (PyStr "Unspecified"));
             failure_publish
               {| fm_message := payload error_message;
                  fm_failure_code := PyNone;
                  fm_reason := py_or status (PyStr "Unspecified") |}]
            ++ stop_calls w)
     end).
Proof.
  intros Hseq. unfold submit_sm_resp, r_get_id_for_sequence.
  unfold redis_get, mbind, M_bind. rewrite Hseq.
  rewrite r_set_id_for_third_party_id_eq.
  unfold r_delete_for_sequence, redis_delete, with_redis. cbn.
  rewrite upd_upd. cbn [app config upd throttled redis].
  change (store_delete _ (store_expire _ _ _)) with (correlated kwargs id w).
  destruct (bool_decide (resp_command_status kwargs = PyStr "ESME_ROK")).
  { rewrite submit_sm_success_eq, stop_throttling_eq. by rewrite !upd_upd. }
  destruct (bool_decide (resp_command_status kwargs = PyStr "ESME_RTHROTTLED")).
  { rewrite start_throttling_eq, submit_sm_throttled_eq. by rewrite !upd_upd. }
  rewrite submit_sm_failure_eq.
  destruct (stored_message _ _ _); rewrite stop_throttling_eq;
    by rewrite !upd_upd.
Qed.

Lemma kv_correlated_third_party_id kwargs id w :
  kv (correlated kwargs id w) !! r_third_party_id_key (resp_message_id kwargs)
  = Some id.
Proof.
  unfold correlated, store_delete, store_expire, store_set. cbn.
  rewrite lookup_insert_eq. cbn.
  rewrite lookup_delete_ne by apply str_ne_third_party_id_key.
  apply lookup_insert_eq.
Qed.

Lemma ttl_correlated_third_party_id kwargs id w :
  ttl (correlated kwargs id w) !! r_third_party_id_key (resp_message_id kwargs)
  = Some (third_party_id_expiry (config w)).
Proof.
  unfold correlated, store_delete, store_expire, store_set. cbn.
  rewrite lookup_insert_eq. cbn.
  rewrite lookup_delete_ne by apply str_ne_third_party_id_key.
  apply lookup_insert_eq.
Qed.

Lemma kv_correlated_message_key kwargs id w message_id :
  kv (correlated kwargs id w) !! r_message_key message_id
  = kv (redis w) !! r_message_key message_id.
Proof.
  unfold correlated, store_delete, store_expire, store_set. cbn.
  rewrite lookup_insert_eq. cbn.
  rewrite lookup_delete_ne by apply str_ne_message_key.
  rewrite lookup_insert_ne; [done|].
  intros E. symmetry in E. by apply message_key_ne_third_party_id_key in E.
Qed.

Lemma stored_message_correlated from_json kwargs id w message_id :
  stored_message from_json (correlated kwargs id w) message_id
  = stored_message from_json (redis w) message_id.
Proof. unfold stored_message. by rewrite kv_correlated_message_key. Qed.

(** ** The third party id mapping *)

(** C1, as the code has it: whenever the sequence number of a submit_sm_resp
    resolves to a user message id, the third party id (the SMSC's message
    id) is mapped to that user message id and given the expiry
    [third_party_id_expiry], whatever the command status is: the binding is
    made before the status is looked at, and no branch removes it. *)
Theorem third_party_id_bound_for_every_status
  (from_json : string → Message) (kwargs : submit_sm_resp_kwargs)
  (w : SmppTransport) (id : string) :
  kv (redis w) !! str (resp_sequence_number kwargs) = Some id →
  let w' := exec (submit_sm_resp from_json kwargs) w in
  let rkey := r_third_party_id_key (resp_message_id kwargs) in
  kv (redis w') !! rkey = Some id ∧
  ttl (redis w') !! rkey = Some (third_party_id_expiry (config w)).
Proof.
  intros Hseq w' rkey. subst w' rkey. unfold exec.
  rewrite (submit_sm_resp_resolved _ _ _ _ Hseq). cbn.
  assert (Hne : r_message_key id ≠ r_third_party_id_key (resp_message_id kwargs))
    by apply message_key_ne_third_party_id_key.
  repeat case_bool_decide; [| |destruct (stored_message _ _ _)]; cbn;
    rewrite ?lookup_delete_ne by exact Hne;
    auto using kv_correlated_third_party_id, ttl_correlated_third_party_id.
Qed.

Lemma third_party_id_bound_for_every_status_witness :
  let kwargs := mkResp "SM1" 7 (PyStr "ESME_RINVDSTADR") in
  let w := example_worker [("7", "m1")] false in
  let w' := exec (submit_sm_resp example_from_json kwargs) w in
  kv (redis w) !! str 7 = Some "m1" ∧
  kv (redis w') !! "3rd_party_id#SM1" = Some "m1" ∧
  ttl (redis w') !! "3rd_party_id#SM1" = Some 604800%Z.
Proof.
  split; [reflexivity|].
  apply (third_party_id_bound_for_every_status example_from_json
           (mkResp "SM1" 7 (PyStr "ESME_RINVDSTADR"))
           (example_worker [("7", "m1")] false) "m1").
  reflexivity.
Defined.

(** C1, as the spec states it, fails: a throttled response whose sequence
    number resolves leaves a third party id entry behind. *)
Lemma third_party_id_bound_when_throttled :
  let kwargs := mkResp "SM2" 1 (PyStr "ESME_RTHROTTLED") in
  let w := example_worker [("1", "m2"); ("message_json#m2", "m2")] false in
  let w' := exec (submit_sm_resp example_from_json kwargs) w in
  kv (redis w) !! str (resp_sequence_number kwargs) = Some "m2" ∧
  resp_command_status kwargs ≠ PyStr "ESME_ROK" ∧
  kv (redis w) !! r_third_party_id_key "SM2" = None ∧
  kv (redis w') !! r_third_party_id_key "SM2" = Some "m2" ∧
  ttl (redis w') !! r_third_party_id_key "SM2" = Some 604800%Z.
Proof. vm_compute. repeat split; congruence. Qed.

(** ** Throttling *)

Lemma bus_calls_app es es' : bus_calls (es ++ es') = bus_calls es ++ bus_calls es'.
Proof. apply List.filter_app. Qed.

Lemma start_throttling_noop w :
  throttled w = true → _start_throttling w = (Ok tt, w).
Proof.
  intros Hflag. rewrite start_throttling_eq. unfold start_calls.
  rewrite Hflag. f_equal. rewrite <- Hflag at 1. apply upd_id.
Qed.

Lemma stop_throttling_noop w :
  throttled w = false → _stop_throttling w = (Ok tt, w).
Proof.
  intros Hflag. rewrite stop_throttling_eq. unfold stop_calls.
  rewrite Hflag. f_equal. rewrite <- Hflag at 1. apply upd_id.
Qed.

(** One resolved response: the flag follows the outcome, and the bus sees a
    call only when the flag changes. *)
Lemma submit_sm_resp_throttling from_json kwargs w :
  is_Some (kv (redis w) !! str (resp_sequence_number kwargs)) →
  let w' := exec (submit_sm_resp from_json kwargs) w in
  throttled w' = is_throttled_resp kwargs ∧
  bus_calls (trace w') =
    bus_calls (trace w) ++ edge_calls (throttled w) [is_throttled_resp kwargs].
Proof.
  intros [id Hseq]. cbn. unfold exec, is_throttled_resp.
  rewrite (submit_sm_resp_resolved _ _ _ _ Hseq). cbn.
  case_bool_decide as Hok.
  { rewrite Hok. cbn. rewrite bus_calls_app. split; [done|].
    unfold stop_calls. by destruct (throttled w). }
  case_bool_decide as Hthr.
  { cbn. rewrite !bus_calls_app. split; [done|].
    unfold start_calls. by destruct (throttled w), (stored_message _ _ _). }
  destruct (stored_message _ _ _); cbn; rewrite bus_calls_app; (split; [done|]);
    unfold stop_calls; by destruct (throttled w).
Qed.

Lemma run_resps_cons from_json kwargs resps w :
  run_resps from_json (kwargs :: resps) w
  = run_resps from_json resps (exec (submit_sm_resp from_json kwargs) w).
Proof. reflexivity. Qed.

Lemma run_resps_app from_json resps resps' w :
  run_resps from_json (resps ++ resps') w
  = run_resps from_json resps' (run_resps from_json resps w).
Proof. apply foldl_app. Qed.

Lemma all_resolve_app from_json resps resps' w :
  all_resolve from_json (resps ++ resps') w ↔
  all_resolve from_json resps w ∧
  all_resolve from_json resps' (run_resps from_json resps w).
Proof.
  revert w. induction resps as [|kwargs resps IH]; intros w.
  - cbn. tauto.
  - rewrite <- app_comm_cons, run_resps_cons. cbn [all_resolve].
    rewrite IH. tauto.
Qed.

(** Any sequence of resolved responses: the pause and resume calls are the
    edges of the sequence of outcomes. *)
Lemma run_resps_edge_calls from_json resps w :
  all_resolve from_json resps w →
  bus_calls (trace (run_resps from_json resps w)) =
    bus_calls (trace w) ++
    edge_calls (throttled w) (map is_throttled_resp resps).
Proof.
  revert w. induction resps as [|kwargs resps IH]; intros w.
  - intros _. cbn. by rewrite app_nil_r.
  - rewrite run_resps_cons. cbn [all_resolve map]. intros [Hres Hrest].
    destruct (submit_sm_resp_throttling from_json kwargs w Hres) as [Hflag Hcalls].
    cbn zeta in Hflag, Hcalls. rewrite (IH _ Hrest), Hcalls, Hflag.
    cbn [edge_calls]. by rewrite app_nil_r, <- app_assoc.
Qed.

Lemma run_resps_throttled from_json resps kwargs w :
  all_resolve from_json (resps ++ [kwargs]) w →
  throttled (run_resps from_json (resps ++ [kwargs]) w) = is_throttled_resp kwargs.
Proof.
  rewrite all_resolve_app, run_resps_app. cbn [all_resolve].
  intros (_ & Hres & _).
  by destruct (submit_sm_resp_throttling from_json kwargs _ Hres).
Qed.

Lemma edge_calls_throttled_run t outcomes :
  Forall (λ o, o = true) outcomes → outcomes ≠ [] →
  edge_calls t outcomes = if t then [] else [pause_connectors].
Proof.
  intros Hall. revert t. induction Hall as [|o os Ho _ IH]; intros t Hne; [done|].
  subst o. cbn. destruct os as [|o' os'].
  - by destruct t.
  - rewrite IH by done. by destruct t.
Qed.

(** C2: throttling is edge-triggered.  Take a worker that is not throttled
    (at the start, or after any earlier responses), a non-empty run of
    consecutive ESME_RTHROTTLED responses and the first response after the
    run that is not a throttled one (a success or a terminal failure), all
    with sequence numbers that resolve.  The whole run makes exactly one
    [pause_connectors] call and no resume, and leaves [throttled] set; the
    response after it makes exactly one [unpause_connectors] call and clears
    the flag.  A further [_start_throttling] inside the throttled phase, and a
    further [_stop_throttling] after it, change nothing and call nothing.
    Whatever resolved responses follow, the pause and resume calls they cause
    are the edges of their sequence of outcomes: one pause where a throttled
    phase starts, one resume where it ends. *)
Theorem throttling_is_edge_triggered
  (from_json : string → Message) (run : list submit_sm_resp_kwargs)
  (kwargs : submit_sm_resp_kwargs) (w : SmppTransport) :
  throttled w = false →
  run ≠ [] →
  Forall (λ k, is_throttled_resp k = true) run →
  is_throttled_resp kwargs = false →
  all_resolve from_json (run ++ [kwargs]) w →
  let w1 := run_resps from_json run w in
  let w2 := exec (submit_sm_resp from_json kwargs) w1 in
  (bus_calls (trace w1) = bus_calls (trace w) ++ [pause_connectors] ∧
   throttled w1 = true) ∧
  (bus_calls (trace w2) = bus_calls (trace w1) ++ [unpause_connectors] ∧
   throttled w2 = false) ∧
  _start_throttling w1 = (Ok tt, w1) ∧
  _stop_throttling w2 = (Ok tt, w2) ∧
  (∀ resps, all_resolve from_json resps w2 →
     bus_calls (trace (run_resps from_json resps w2)) =
       bus_calls (trace w2) ++ edge_calls false (map is_throttled_resp resps)).
Proof.
  intros Hflag Hne Hrun Hlast Hres w1 w2.
  apply all_resolve_app in Hres as [Hres1 Hres2]. fold w1 in Hres2.
  cbn [all_resolve] in Hres2. destruct Hres2 as [Hres2 _].
  assert (Hcalls1 : bus_calls (trace w1) = bus_calls (trace w) ++ [pause_connectors]).
  { subst w1. rewrite (run_resps_edge_calls _ _ _ Hres1), Hflag.
    rewrite edge_calls_throttled_run; [done| |by destruct run].
    clear -Hrun. induction Hrun; constructor; auto. }
  assert (Hflag1 : throttled w1 = true).
  { subst w1. destruct (exists_last Hne) as (run' & k & ->).
    rewrite (run_resps_throttled _ _ _ _ Hres1).
    apply Forall_app in Hrun as [_ Hk]. by inversion Hk. }
  destruct (submit_sm_resp_throttling from_json kwargs w1 Hres2) as [Hflag2 Hcalls2].
  cbn zeta in Hflag2, Hcalls2. fold w2 in Hflag2, Hcalls2.
  rewrite Hlast in Hflag2, Hcalls2. rewrite Hflag1 in Hcalls2. cbn in Hcalls2.
  repeat split; auto using start_throttling_noop, stop_throttling_noop.
  intros resps Hresps. rewrite <- Hflag2. by apply run_resps_edge_calls.
Qed.

Lemma throttling_is_edge_triggered_witness :
  let w := example_worker
             [("1", "m1"); ("2", "m2"); ("3", "m3"); ("message_json#m3", "m3")]
             false in
  let run := [mkResp "" 1 (PyStr "ESME_RTHROTTLED");
              mkResp "" 2 (PyStr "ESME_RTHROTTLED")] in
  let kwargs := mkResp "SM3" 3 (PyStr "ESME_ROK") in
  let w1 := run_resps example_from_json run w in
  let w2 := exec (submit_sm_resp example_from_json kwargs) w1 in
  all_resolve example_from_json (run ++ [kwargs]) w ∧
  (bus_calls (trace w1) = bus_calls (trace w) ++ [pause_connectors] ∧
   throttled w1 = true) ∧
  (bus_calls (trace w2) = bus_calls (trace w1) ++ [unpause_connectors] ∧
   throttled w2 = false) ∧
  _start_throttling w1 = (Ok tt, w1) ∧
  _stop_throttling w2 = (Ok tt, w2) ∧
  (∀ resps, all_resolve example_from_json resps w2 →
     bus_calls (trace (run_resps example_from_json resps w2)) =
       bus_calls (trace w2) ++ edge_calls false (map is_throttled_resp resps)).
Proof.
  intros w run kwargs w1 w2.
  assert (Hres : all_resolve example_from_json (run ++ [kwargs]) w)
    by (vm_compute; repeat split; eexists; reflexivity).
  split; [exact Hres|].
  apply (throttling_is_edge_triggered example_from_json run kwargs w).
  - reflexivity.
  - discriminate.
  - repeat constructor.
  - reflexivity.
  - exact Hres.
Defined.

(** ** The stored body *)

Lemma stored_message_present from_json r id body :
  kv r !! r_message_key id = Some body → body ≠ "" →
  stored_message from_json r id = Some (from_json body).
Proof.
  intros Hbody Hne. unfold stored_message. rewrite Hbody. cbn.
  by destruct (String.eqb_spec body "").
Qed.

Lemma stored_message_missing from_json r id :
  kv r !! r_message_key id = None ∨ kv r !! r_message_key id = Some "" →
  stored_message from_json r id = None.
Proof. unfold stored_message. by intros [-> | ->]. Qed.

(** ** Terminal failures *)

(** C3, as the code has it: a submit_sm_resp whose sequence number resolves
    and whose command status is neither ESME_ROK nor ESME_RTHROTTLED is a
    terminal failure, with reason [status or 'Unspecified'].  When the stored
    body is there, it is decoded and deleted, one nack for the user message
    id and exactly one failure record, carrying the decoded payload and the
    reason, are published, in that order.  When the stored body is missing
    (no key, or an empty value), nothing is published at all, neither the
    nack nor the failure record: [log.err] records the miss and the body key
    is left as it was.  Both ways throttling is cleared afterwards. *)
Theorem terminal_failure_handling
  (from_json : string → Message) (kwargs : submit_sm_resp_kwargs)
  (w : SmppTransport) (id : string) :
  kv (redis w) !! str (resp_sequence_number kwargs) = Some id →
  resp_command_status kwargs ≠ PyStr "ESME_ROK" →
  resp_command_status kwargs ≠ PyStr "ESME_RTHROTTLED" →
  let w' := exec (submit_sm_resp from_json kwargs) w in
  let reason := py_or (resp_command_status kwargs) (PyStr "Unspecified") in
  (∀ body, kv (redis w) !! r_message_key id = Some body → body ≠ "" →
     kv (redis w') !! r_message_key id = None ∧
     trace w' = trace w ++
       [publish_nack id reason;
        failure_publish {| fm_message := payload (from_json body);
                           fm_failure_code := PyNone;
                           fm_reason := reason |}] ++ stop_calls w) ∧
  (kv (redis w) !! r_message_key id = None ∨
   kv (redis w) !! r_message_key id = Some "" →
     kv (redis w') !! r_message_key id = kv (redis w) !! r_message_key id ∧
     trace w' = trace w ++
       [log ERR "Could not retrieve failed message:%s" [arg_str id]]
       ++ stop_calls w) ∧
  throttled w' = false.
Proof.
  intros Hseq Hok Hthr w' reason. subst w' reason. unfold exec.
  rewrite (submit_sm_resp_resolved _ _ _ _ Hseq). cbn zeta.
  rewrite !bool_decide_eq_false_2 by done.
  rewrite stored_message_correlated. cbn [snd].
  split; [|split].
  - intros body Hbody Hne.
    rewrite (stored_message_present _ _ _ _ Hbody Hne). cbn.
    split; [apply lookup_delete_eq|done].
  - intros Hmiss. rewrite (stored_message_missing _ _ _ Hmiss). cbn.
    split; [apply kv_correlated_message_key|done].
  - by destruct (stored_message _ _ _).
Qed.

Lemma terminal_failure_handling_witness :
  let kwargs := mkResp "SM1" 7 (PyStr "ESME_RINVDSTADR") in
  let w := example_worker [("7", "m1"); ("message_json#m1", "m1")] true in
  let w' := exec (submit_sm_resp example_from_json kwargs) w in
  kv (redis w) !! str 7 = Some "m1" ∧
  kv (redis w) !! r_message_key "m1" = Some "m1" ∧
  kv (redis w') !! r_message_key "m1" = None ∧
  trace w' = trace w ++
    [publish_nack "m1" (PyStr "ESME_RINVDSTADR");
     failure_publish {| fm_message := example_payload "m1";
                        fm_failure_code := PyNone;
                        fm_reason := PyStr "ESME_RINVDSTADR" |}] ++ stop_calls w.
Proof.
  intros kwargs w w'.
  assert (Hseq : kv (redis w) !! str (resp_sequence_number kwargs) = Some "m1")
    by reflexivity.
  assert (Hbody : kv (redis w) !! r_message_key "m1" = Some "m1") by reflexivity.
  split; [exact Hseq|]. split; [exact Hbody|].
  apply (terminal_failure_handling example_from_json kwargs w "m1" Hseq);
    [discriminate | discriminate | exact Hbody | discriminate].
Defined.

(** C3, as the spec states it, fails: with the stored body gone, the
    terminal failure publishes no nack for the user message id. *)
Lemma terminal_failure_without_body_publishes_no_nack :
  let kwargs := mkResp "SM1" 7 (PyStr "ESME_RINVDSTADR") in
  let w := example_worker [("7", "m1")] false in
  let w' := exec (submit_sm_resp example_from_json kwargs) w in
  kv (redis w) !! str (resp_sequence_number kwargs) = Some "m1" ∧
  resp_command_status kwargs ≠ PyStr "ESME_ROK" ∧
  resp_command_status kwargs ≠ PyStr "ESME_RTHROTTLED" ∧
  trace w' = [log ERR "Could not retrieve failed message:%s" [arg_str "m1"]] ∧
  ¬ ∃ reason, In (publish_nack "m1" reason) (trace w').
Proof.
  vm_compute. repeat split; try congruence.
  intros [reason [H | []]]. discriminate.
Qed.

(** C10: whatever [failure_code] is passed to [submit_sm_failure], the call
    does what it does with [None], and every failure record among the calls
    it makes has [failure_code] [None]; with a stored body there is such a
    record, so the statement is not an empty one. *)
Theorem failure_code_is_always_none
  (from_json : string → Message) (sent_sms_id : string)
  (reason failure_code : pyval) (w : SmppTransport) :
  submit_sm_failure from_json sent_sms_id reason failure_code w
  = submit_sm_failure from_json sent_sms_id reason PyNone w ∧
  ∃ es,
    trace (exec (submit_sm_failure from_json sent_sms_id reason failure_code) w)
    = trace w ++ es ∧
    (∀ f, In (failure_publish f) es → fm_failure_code f = PyNone) ∧
    (∀ m, stored_message from_json (redis w) sent_sms_id = Some m →
       In (failure_publish {| fm_message := payload m;
                              fm_failure_code := PyNone;
                              fm_reason := reason |}) es).
Proof.
  split; [reflexivity|]. unfold exec. rewrite submit_sm_failure_eq. cbn [snd].
  destruct (stored_message _ _ _) as [m|]; eexists; (split; [reflexivity|]).
  - split.
    + intros f [Hf | [Hf | []]]; [discriminate|]. by inversion Hf.
    + intros m' [= <-]. right. by left.
  - split; [|done]. intros f [Hf | []]. discriminate.
Qed.

(** ** Throttled responses *)

(** C4: a submit_sm_resp with status ESME_RTHROTTLED whose sequence number
    resolves puts the worker into throttling (pausing the connectors if it
    was not throttled yet).  With the stored body there, the decoded message
    is handed to [callLater] for [_submit_outbound_message] after
    [throttle_delay] seconds, and the body stays in the store.  With the body
    missing, [log.err] records it and nothing is scheduled.  The declared
    default of [throttle_delay] is 0.1. *)
Theorem throttled_response_handling
  (from_json : string → Message) (kwargs : submit_sm_resp_kwargs)
  (w : SmppTransport) (id : string) :
  kv (redis w) !! str (resp_sequence_number kwargs) = Some id →
  resp_command_status kwargs = PyStr "ESME_RTHROTTLED" →
  let w' := exec (submit_sm_resp from_json kwargs) w in
  throttled w' = true ∧
  (∀ body, kv (redis w) !! r_message_key id = Some body → body ≠ "" →
     kv (redis w') !! r_message_key id = Some body ∧
     trace w' = trace w ++ start_calls w ++
       [callLater (throttle_delay (config w))
          (cb_submit_outbound_message (from_json body))]) ∧
  (kv (redis w) !! r_message_key id = None ∨
   kv (redis w) !! r_message_key id = Some "" →
     trace w' = trace w ++ start_calls w ++
       [log ERR "Could not retrieve throttled message:%s" [arg_str id]]) ∧
  throttle_delay default_config = QArith_base.Qmake 1 10.
Proof.
  intros Hseq Hthr w'. subst w'. unfold exec.
  rewrite (submit_sm_resp_resolved _ _ _ _ Hseq). cbn zeta.
  rewrite Hthr. cbn [snd bool_decide decide_rel].
  rewrite bool_decide_eq_false_2 by done.
  rewrite bool_decide_eq_true_2 by done.
  rewrite stored_message_correlated. cbn [throttled upd trace redis].
  split; [done|]. split; [|split; [|done]].
  - intros body Hbody Hne.
    rewrite (stored_message_present _ _ _ _ Hbody Hne).
    split; [|done]. by rewrite kv_correlated_message_key.
  - intros Hmiss. by rewrite (stored_message_missing _ _ _ Hmiss).
Qed.

Lemma throttled_response_handling_witness :
  let kwargs := mkResp "" 1 (PyStr "ESME_RTHROTTLED") in
  let w := example_worker [("1", "m2"); ("message_json#m2", "m2")] false in
  let w' := exec (submit_sm_resp example_from_json kwargs) w in
  kv (redis w) !! str 1 = Some "m2" ∧
  kv (redis w) !! r_message_key "m2" = Some "m2" ∧
  kv (redis w') !! r_message_key "m2" = Some "m2" ∧
  trace w' = trace w ++ start_calls w ++
    [callLater (QArith_base.Qmake 1 10)
       (cb_submit_outbound_message (example_from_json "m2"))].
Proof.
  intros kwargs w w'.
  assert (Hseq : kv (redis w) !! str (resp_sequence_number kwargs) = Some "m2")
    by reflexivity.
  assert (Hbody : kv (redis w) !! r_message_key "m2" = Some "m2") by reflexivity.
  split; [exact Hseq|]. split; [exact Hbody|].
  apply (throttled_response_handling example_from_json kwargs w "m2" Hseq);
    [reflexivity | exact Hbody | discriminate].
Defined.

(** ** Delivery reports *)

(** C5: [delivery_status] answers on every stat string: "delivered" for
    "DELIVRD" and for "0", "failed" for "REJECTD", and "pending" for every
    other string. *)
Theorem delivery_status_mapping (state : string) :
  delivery_status "DELIVRD" = "delivered" ∧
  delivery_status "0" = "delivered" ∧
  delivery_status "REJECTD" = "failed" ∧
  (state ≠ "DELIVRD" → state ≠ "0" → state ≠ "REJECTD" →
   delivery_status state = "pending") ∧
  (delivery_status state = "delivered" ∨ delivery_status state = "failed" ∨
   delivery_status state = "pending").
Proof.
  split; [reflexivity|]. split; [reflexivity|]. split; [reflexivity|]. split.
  - intros H1 H2 H3. unfold delivery_status, py_in. cbn.
    apply String.eqb_neq in H1, H2, H3. by rewrite H1, H2, H3.
  - unfold delivery_status. repeat destruct (py_in _ _); auto.
Qed.

Lemma delivery_status_mapping_witness :
  "UNDELIV" ≠ "DELIVRD" ∧ "UNDELIV" ≠ "0" ∧ "UNDELIV" ≠ "REJECTD" ∧
  delivery_status "UNDELIV" = "pending".
Proof.
  split; [discriminate|]. split; [discriminate|]. split; [discriminate|].
  apply (delivery_status_mapping "UNDELIV"); discriminate.
Defined.

(** ** Correlation misses *)

(** C6, as the code has it: a submit_sm_resp whose sequence number has no
    entry makes one [log.err] call and nothing else.  A delivery report whose
    third party id has no entry makes one [log.warning] call and nothing
    else when its done date parses; the handler parses the date before it
    looks the id up, so with a done date that does not parse it raises
    [ValueError] and the miss is not logged.  In every case nothing is
    published, the store and the [throttled] flag are as before, and no
    teardown call is made. *)
Theorem correlation_miss_is_logged_and_dropped
  (from_json : string → Message)
  (strptime : string → string → option datetime)
  (kwargs : submit_sm_resp_kwargs) (report : delivery_report_dict)
  (w : SmppTransport) :
  (kv (redis w) !! str (resp_sequence_number kwargs) = None →
   submit_sm_resp from_json kwargs w =
   (Ok tt,
    upd w (redis w) (throttled w)
      [log ERR "Sequence number lookup failed for:%s"
         [arg_int (resp_sequence_number kwargs)]])) ∧
  (kv (redis w) !! r_third_party_id_key (dr_id report) = None →
   match strptime (dr_done_date report) "%y%m%d%H%M%S" with
   | Some _ =>
       delivery_report strptime report w =
       (Ok tt,
        upd w (redis w) (throttled w)
          [log WARNING
             ("Failed to retrieve message id for delivery report." +:+
              " Delivery report from %s discarded.")
             [arg_str (transport_name w)]])
   | None =>
       delivery_report strptime report w =
       (Raise (ValueError (dr_done_date report)), w)
   end).
Proof.
  split.
  - apply submit_sm_resp_miss.
  - intros Hmiss. unfold delivery_report, r_get_id_for_third_party_id.
    unfold_monad. destruct (strptime _ _); [|done].
    by rewrite Hmiss.
Qed.

Lemma correlation_miss_is_logged_and_dropped_witness :
  let w := example_worker [("1", "m1")] false in
  let kwargs := mkResp "SM9" 9999 (PyStr "ESME_ROK") in
  let report := mkReport "SM9" "001" "001" "130101120000" "130101120500"
                  "DELIVRD" "000" "hi" in
  kv (redis w) !! str 9999 = None ∧
  kv (redis w) !! r_third_party_id_key "SM9" = None ∧
  submit_sm_resp example_from_json kwargs w =
    (Ok tt,
     upd w (redis w) (throttled w)
       [log ERR "Sequence number lookup failed for:%s" [arg_int 9999]]) ∧
  delivery_report example_strptime report w =
    (Ok tt,
     upd w (redis w) (throttled w)
       [log WARNING
          ("Failed to retrieve message id for delivery report." +:+
           " Delivery report from %s discarded.")
          [arg_str "smpp_transport"]]).
Proof.
  intros w kwargs report.
  assert (H1 : kv (redis w) !! str (resp_sequence_number kwargs) = None)
    by reflexivity.
  assert (H2 : kv (redis w) !! r_third_party_id_key (dr_id report) = None)
    by reflexivity.
  destruct (correlation_miss_is_logged_and_dropped example_from_json
              example_strptime kwargs report w) as [Hresp Hreport].
  split; [exact H1|]. split; [exact H2|].
  split; [exact (Hresp H1) | exact (Hreport H2)].
Defined.

(** C6, as the spec states it, fails: a delivery report with an empty done
    date (the report pattern lets the group be empty, and
    [datetime.strptime] raises [ValueError] on it, as the parser of the
    examples does) and an unknown third party id is not logged.  The handler
    raises before the lookup and the trace stays empty. *)
Lemma correlation_miss_with_unparsed_date_is_not_logged :
  let report := mkReport "SM9" "001" "001" "" "" "DELIVRD" "000" "hi" in
  let w := example_worker [("1", "m1")] false in
  kv (redis w) !! r_third_party_id_key (dr_id report) = None ∧
  delivery_report example_strptime report w = (Raise (ValueError ""), w) ∧
  trace (exec (delivery_report example_strptime report) w) = [] ∧
  ¬ ∃ lvl fmt args,
      In (log lvl fmt args) (trace (exec (delivery_report example_strptime report) w)).
Proof.
  vm_compute. repeat split. by intros (lvl & fmt & args & []).
Qed.

(** ** Inbound messages *)

Lemma session_events_lookup (key : string) :
  session_events !! key =
  if decide (key = "new") then Some SESSION_NEW
  else if decide (key = "continue") then Some SESSION_RESUME
  else if decide (key = "close") then Some SESSION_CLOSE
  else None.
Proof.
  unfold session_events.
  repeat case_decide; subst; try reflexivity.
  rewrite !lookup_insert_ne by done. apply lookup_singleton_ne. done.
Qed.

(** C7: the inbound message [deliver_sm] publishes.  Outside ussd it carries
    the addresses and the text of the PDU, [transport_type] equal to
    [message_type] ("sms" when the key is absent) and empty transport
    metadata.  On ussd, with [session_event] one of "new", "continue" and
    "close", it carries the same fields, the session event NEW, RESUME or
    CLOSE respectively, and [session_info] under that key of the transport
    metadata. *)
Theorem deliver_sm_publishes_inbound (kwargs : deliver_sm_kwargs) (w : SmppTransport) :
  let message_type := default "sms" (dk_message_type kwargs) in
  (message_type ≠ "ussd" →
   ∃ m,
     deliver_sm kwargs w =
       (Ok tt,
        upd w (redis w) (throttled w)
          [log MSG "PUBLISHING INBOUND: %s" [arg_inbound m]; publish_message m]) ∧
     in_message_id m = dk_message_id kwargs ∧
     in_to_addr m = dk_destination_addr kwargs ∧
     in_from_addr m = dk_source_addr kwargs ∧
     in_content m = dk_short_message kwargs ∧
     in_transport_type m = message_type ∧
     in_transport_metadata m = ∅ ∧
     in_session_event m = None) ∧
  (∀ ev se,
     message_type = "ussd" →
     dk_session_event kwargs = Some ev →
     (ev = "new" ∧ se = SESSION_NEW) ∨
     (ev = "continue" ∧ se = SESSION_RESUME) ∨
     (ev = "close" ∧ se = SESSION_CLOSE) →
     ∃ m,
       deliver_sm kwargs w =
         (Ok tt,
          upd w (redis w) (throttled w)
            [log MSG "PUBLISHING INBOUND: %s" [arg_inbound m]; publish_message m]) ∧
       in_message_id m = dk_message_id kwargs ∧
       in_to_addr m = dk_destination_addr kwargs ∧
       in_from_addr m = dk_source_addr kwargs ∧
       in_content m = dk_short_message kwargs ∧
       in_transport_type m = "ussd" ∧
       in_session_event m = Some se ∧
       in_transport_metadata m =
         {[ "session_info" := of_get (dk_session_info kwargs) ]}).
Proof.
  intros message_type. subst message_type. split.
  - intros Hsms. apply String.eqb_neq in Hsms.
    unfold deliver_sm. rewrite Hsms. unfold_monad.
    eexists. rewrite upd_upd. split; [reflexivity|]. cbn. done.
  - intros ev se Hussd Hev Hmap.
    unfold deliver_sm. rewrite Hussd, Hev. cbn [String.eqb Ascii.eqb Bool.eqb].
    unfold_monad.
    assert (Hse : session_events !! ev = Some se)
      by (destruct Hmap as [[-> ->] | [[-> ->] | [-> ->]]]; reflexivity).
    rewrite Hse. cbn -[upd].
    eexists. rewrite upd_upd. split; [reflexivity|]. cbn. done.
Qed.

Lemma deliver_sm_publishes_inbound_witness :
  let kwargs := mkDeliver "in1" "*120#" "27761234567" "1"
                  (Some "ussd") (Some "continue") (Some "xyz") in
  let w := example_worker [] false in
  default "sms" (dk_message_type kwargs) = "ussd" ∧
  dk_session_event kwargs = Some "continue" ∧
  ∃ m,
    deliver_sm kwargs w =
      (Ok tt,
       upd w (redis w) (throttled w)
         [log MSG "PUBLISHING INBOUND: %s" [arg_inbound m]; publish_message m]) ∧
    in_message_id m = "in1" ∧
    in_to_addr m = "*120#" ∧
    in_from_addr m = "27761234567" ∧
    in_content m = "1" ∧
    in_transport_type m = "ussd" ∧
    in_session_event m = Some SESSION_RESUME ∧
    in_transport_metadata m = {[ "session_info" := PyStr "xyz" ]}.
Proof.
  intros kwargs w. split; [reflexivity|]. split; [reflexivity|].
  destruct (deliver_sm_publishes_inbound kwargs w) as [_ Hussd].
  apply (Hussd "continue" SESSION_RESUME);
    [reflexivity | reflexivity | right; left; split; reflexivity].
Defined.

(** C9: on the ussd path the lookup of [session_event] is unguarded.  With
    the key absent, or with a value other than "new", "continue" and "close",
    [deliver_sm] raises [KeyError] (on the key name, or on the value) and has
    done nothing before: nothing is logged and nothing is published.  With
    one of the three values it returns normally. *)
Theorem ussd_session_event_is_required (kwargs : deliver_sm_kwargs) (w : SmppTransport) :
  dk_message_type kwargs = Some "ussd" →
  (dk_session_event kwargs = None ∨
   ∃ ev, dk_session_event kwargs = Some ev ∧
         ev ≠ "new" ∧ ev ≠ "continue" ∧ ev ≠ "close") →
  deliver_sm kwargs w =
    (Raise (KeyError (default "session_event" (dk_session_event kwargs))), w).
Proof.
  intros Hussd Hbad. unfold deliver_sm. rewrite Hussd. cbn.
  destruct Hbad as [-> | (ev & -> & H1 & H2 & H3)].
  - reflexivity.
  - unfold_monad. rewrite session_events_lookup.
    by rewrite !decide_False by done.
Qed.

Lemma ussd_session_event_is_required_witness :
  let absent := mkDeliver "in1" "*120#" "27761234567" "1" (Some "ussd") None None in
  let other := mkDeliver "in2" "*120#" "27761234567" "1"
                 (Some "ussd") (Some "resume") None in
  let w := example_worker [] false in
  deliver_sm absent w = (Raise (KeyError "session_event"), w) ∧
  deliver_sm other w = (Raise (KeyError "resume"), w).
Proof.
  intros absent other w. split.
  - apply (ussd_session_event_is_required absent w); [reflexivity|].
    left. reflexivity.
  - apply (ussd_session_event_is_required other w); [reflexivity|].
    right. exists "resume". repeat split; discriminate.
Defined.

(** ** Outbound messages *)

(** C8: [send_smpp] logs, asks the resolver for a route with the
    destination and the three operator settings of the configuration, and
    issues one [submit_sm].  When the resolver answers a source MSISDN (a
    non-empty string, which is what Python's [or] keeps), that answer is the
    [source_addr]; otherwise the [source_addr] is the [from_addr] of the
    message, unchanged. *)
Theorem send_smpp_source_addr
  (get_operator_number :
     string → string → list (string * prefix_tree) → gmap string string → pyval)
  (message : Message) (w : SmppTransport) :
  let route :=
    get_operator_number (to_addr (payload message)) (COUNTRY_CODE (config w))
      (OPERATOR_PREFIX (config w)) (OPERATOR_NUMBER (config w)) in
  ∃ args,
    trace (exec (send_smpp get_operator_number message) w) =
      trace w ++ [log DEBUG "Sending SMPP message: %s" [arg_message message];
                  esme_submit_sm args] ∧
    destination_addr args = to_addr (payload message) ∧
    short_message args = content (payload message) ∧
    (truthy route = true → source_addr args = route) ∧
    (truthy route = false → source_addr args = PyStr (from_addr (payload message))).
Proof.
  intros route. unfold exec. rewrite send_smpp_eq. cbn zeta.
  exists (submit_sm_args_of get_operator_number (config w) message).
  split; [by destruct (oversize _ _)|]. cbn. fold route.
  unfold py_or. repeat split; by intros ->.
Qed.

Lemma send_smpp_source_addr_witness :
  let cfg := {| third_party_id_expiry := 604800;
                throttle_delay := QArith_base.Qmake 1 10;
                send_long_messages := false;
                COUNTRY_CODE := "27";
                OPERATOR_PREFIX := [("27", Prefixes [("27761", Network "N1")])];
                OPERATOR_NUMBER := {[ "N1" := "27999" ]} |} in
  let w := {| transport_name := "smpp_transport"; config := cfg;
              redis := {| kv := ∅; ttl := ∅ |}; throttled := false;
              has_factory := true; trace := [] |} in
  let message := mkMessage (example_payload "m1") in
  let route := spec_get_operator_number "27761234567" "27"
                 (OPERATOR_PREFIX cfg) (OPERATOR_NUMBER cfg) in
  truthy route = true ∧
  ∃ args,
    trace (exec (send_smpp spec_get_operator_number message) w) =
      [log DEBUG "Sending SMPP message: %s" [arg_message message];
       esme_submit_sm args] ∧
    source_addr args = PyStr "27999".
Proof.
  intros cfg w message route.
  split; [reflexivity|].
  destruct (send_smpp_source_addr spec_get_operator_number message w)
    as (args & Htrace & _ & _ & Hsrc & _).
  exists args. split; [exact Htrace|].
  exact (Hsrc eq_refl).
Defined.

(** * Further properties of the worker *)

(** ** The key schema is free of collisions *)

Lemma to_int_not_nil (n : Z) : Z.to_int n ≠ Pos Nil ∧ Z.to_int n ≠ Neg Nil.
Proof.
  destruct n as [|p|p]; cbn; split; try discriminate;
    intros [= E]; by apply DecimalPos.Unsigned.to_uint_nonnil in E.
Qed.

Lemma str_inj (n n' : Z) : str n = str n' → n = n'.
Proof.
  intros E. apply DecimalZ.to_int_inj.
  destruct (to_int_not_nil n) as [Hp Hn], (to_int_not_nil n') as [Hp' Hn'].
  assert (Some (Z.to_int n) = Some (Z.to_int n')) as [= ->]; [|done].
  rewrite <- (NilZero.isi _ Hp Hn), <- (NilZero.isi _ Hp' Hn').
  unfold str in E. by rewrite E.
Qed.

Lemma r_message_key_inj (id id' : string) :
  r_message_key id = r_message_key id' → id = id'.
Proof. cbn. intros E. by simplify_eq. Qed.

Lemma r_third_party_id_key_inj (id id' : string) :
  r_third_party_id_key id = r_third_party_id_key id' → id = id'.
Proof. cbn. intros E. by simplify_eq. Qed.

(** X1: two correlation records share a Redis key only when they are the
    same record: the decimal sequence keys, the [message_json#] keys and the
    [3rd_party_id#] keys are three disjoint families, and inside a family
    different sequence numbers or ids give different keys. *)
Theorem redis_key_inj (k k' : correlation_key) :
  redis_key k = redis_key k' → k = k'.
Proof.
  destruct k as [n|id|id], k' as [n'|id'|id']; cbn [redis_key]; intros E.
  - f_equal. by apply str_inj.
  - by apply str_ne_message_key in E.
  - by apply str_ne_third_party_id_key in E.
  - symmetry in E. by apply str_ne_message_key in E.
  - f_equal. by apply r_message_key_inj.
  - by apply message_key_ne_third_party_id_key in E.
  - symmetry in E. by apply str_ne_third_party_id_key in E.
  - symmetry in E. by apply message_key_ne_third_party_id_key in E.
  - f_equal. by apply r_third_party_id_key_inj.
Qed.

Lemma redis_key_inj_witness :
  redis_key (sequence_key 3) = redis_key (sequence_key 3) ∧
  sequence_key 3 = sequence_key 3.
Proof.
  split; [reflexivity|]. apply (redis_key_inj (sequence_key 3) (sequence_key 3)).
  reflexivity.
Defined.

(** ** What a resolved response does to the store *)

Lemma kv_correlated_sequence kwargs id w :
  kv (correlated kwargs id w) !! str (resp_sequence_number kwargs) = None.
Proof.
  unfold correlated, store_delete. cbn [kv]. apply lookup_delete_eq.
Qed.

Lemma correlated_frame kwargs id w key :
  key ≠ str (resp_sequence_number kwargs) →
  key ≠ r_third_party_id_key (resp_message_id kwargs) →
  kv (correlated kwargs id w) !! key = kv (redis w) !! key ∧
  ttl (correlated kwargs id w) !! key = ttl (redis w) !! key.
Proof.
  intros Hseq Hthird. unfold correlated, store_delete, store_expire, store_set.
  cbn. rewrite lookup_insert_eq. cbn.
  rewrite !lookup_delete_ne by done.
  rewrite !lookup_insert_ne by done.
  by rewrite lookup_delete_ne by done.
Qed.

Lemma submit_sm_resp_store from_json kwargs w id :
  kv (redis w) !! str (resp_sequence_number kwargs) = Some id →
  let r' := redis (exec (submit_sm_resp from_json kwargs) w) in
  r' = correlated kwargs id w ∨
  r' = store_delete (r_message_key id) (correlated kwargs id w).
Proof.
  intros Hseq. cbn zeta. unfold exec.
  rewrite (submit_sm_resp_resolved _ _ _ _ Hseq). cbn zeta.
  repeat case_bool_decide; [| |destruct (stored_message _ _ _)]; cbn; auto.
Qed.

(** X2: a submit_sm_resp with ESME_ROK whose sequence number resolves
    publishes exactly one ack, carrying the user message id and the SMSC's
    message id, and nothing else on the bus but the resume that ends a
    throttled phase.  Afterwards the stored body and the sequence entry are
    gone and the worker is not throttled.  None of this asks whether a body
    was stored: the ack goes out with the body missing too. *)
Theorem ok_response_acks_and_cleans_up
  (from_json : string → Message) (kwargs : submit_sm_resp_kwargs)
  (w : SmppTransport) (id : string) :
  kv (redis w) !! str (resp_sequence_number kwargs) = Some id →
  resp_command_status kwargs = PyStr "ESME_ROK" →
  let w' := exec (submit_sm_resp from_json kwargs) w in
  trace w' = trace w ++
    [log DEBUG "Mapping transport_msg_id=%s to sent_sms_id=%s"
       [arg_str (resp_message_id kwargs); arg_str id];
     log DEBUG "PUBLISHING ACK: (%s -> %s)"
       [arg_str id; arg_str (resp_message_id kwargs)];
     publish_ack id (resp_message_id kwargs)] ++ stop_calls w ∧
  kv (redis w') !! r_message_key id = None ∧
  kv (redis w') !! str (resp_sequence_number kwargs) = None ∧
  throttled w' = false.
Proof.
  intros Hseq Hok w'. subst w'. unfold exec.
  rewrite (submit_sm_resp_resolved _ _ _ _ Hseq). cbn zeta.
  rewrite bool_decide_eq_true_2 by done. cbn.
  split; [done|]. split; [apply lookup_delete_eq|]. split; [|done].
  rewrite lookup_delete_ne by (intros E; symmetry in E; by apply str_ne_message_key in E).
  apply kv_correlated_sequence.
Qed.

Lemma ok_response_acks_and_cleans_up_witness :
  let kwargs := mkResp "SM1" 1 (PyStr "ESME_ROK") in
  let w := example_worker [("1", "m1")] true in
  let w' := exec (submit_sm_resp example_from_json kwargs) w in
  kv (redis w) !! str 1 = Some "m1" ∧
  kv (redis w) !! r_message_key "m1" = None ∧
  trace w' =
    [log DEBUG "Mapping transport_msg_id=%s to sent_sms_id=%s"
       [arg_str "SM1"; arg_str "m1"];
     log DEBUG "PUBLISHING ACK: (%s -> %s)" [arg_str "m1"; arg_str "SM1"];
     publish_ack "m1" "SM1";
     log ERR "No longer throttling outbound messages." [];
     unpause_connectors].
Proof.
  intros kwargs w w'.
  split; [reflexivity|]. split; [reflexivity|].
  apply (ok_response_acks_and_cleans_up example_from_json kwargs w "m1");
    reflexivity.
Defined.

(** X3: a sequence number is used up by the first response that resolves
    it, whatever its status.  A second response with the same sequence number
    is a correlation miss: one [log.err] line, nothing published, nothing
    stored. *)
Theorem duplicate_response_is_dropped
  (from_json : string → Message) (kwargs again : submit_sm_resp_kwargs)
  (w : SmppTransport) (id : string) :
  kv (redis w) !! str (resp_sequence_number kwargs) = Some id →
  resp_sequence_number again = resp_sequence_number kwargs →
  let w' := exec (submit_sm_resp from_json kwargs) w in
  kv (redis w') !! str (resp_sequence_number kwargs) = None ∧
  submit_sm_resp from_json again w' =
    (Ok tt,
     upd w' (redis w') (throttled w')
       [log ERR "Sequence number lookup failed for:%s"
          [arg_int (resp_sequence_number kwargs)]]).
Proof.
  intros Hseq Hsame w'.
  assert (Hgone : kv (redis w') !! str (resp_sequence_number kwargs) = None).
  { destruct (submit_sm_resp_store from_json kwargs w id Hseq) as [E | E];
      cbn zeta in E; fold w' in E; rewrite E.
    - apply kv_correlated_sequence.
    - cbn. rewrite lookup_delete_ne
        by (intros E'; symmetry in E'; by apply str_ne_message_key in E').
      apply kv_correlated_sequence. }
  split; [exact Hgone|].
  rewrite <- Hsame in Hgone |- *. by apply submit_sm_resp_miss.
Qed.

Lemma duplicate_response_is_dropped_witness :
  let kwargs := mkResp "SM1" 1 (PyStr "ESME_ROK") in
  let w := example_worker [("1", "m1"); ("message_json#m1", "m1")] false in
  let w' := exec (submit_sm_resp example_from_json kwargs) w in
  kv (redis w) !! str 1 = Some "m1" ∧
  kv (redis w') !! str 1 = None ∧
  submit_sm_resp example_from_json kwargs w' =
    (Ok tt,
     upd w' (redis w') (throttled w')
       [log ERR "Sequence number lookup failed for:%s" [arg_int 1]]).
Proof.
  intros kwargs w w'. split; [reflexivity|].
  apply (duplicate_response_is_dropped example_from_json kwargs kwargs w "m1");
    reflexivity.
Defined.

(** X4: a resolved response only touches its own three records.  Every
    other key of the store, with its expiry, is as before: the entries of
    other sequence numbers, the bodies of other messages, other third party
    ids and any key outside the schema. *)
Theorem resolved_response_touches_own_records
  (from_json : string → Message) (kwargs : submit_sm_resp_kwargs)
  (w : SmppTransport) (id key : string) :
  kv (redis w) !! str (resp_sequence_number kwargs) = Some id →
  key ≠ str (resp_sequence_number kwargs) →
  key ≠ r_message_key id →
  key ≠ r_third_party_id_key (resp_message_id kwargs) →
  let w' := exec (submit_sm_resp from_json kwargs) w in
  kv (redis w') !! key = kv (redis w) !! key ∧
  ttl (redis w') !! key = ttl (redis w) !! key.
Proof.
  intros Hseq Hk1 Hk2 Hk3 w'.
  destruct (correlated_frame kwargs id w key Hk1 Hk3) as [Hkv Httl].
  destruct (submit_sm_resp_store from_json kwargs w id Hseq) as [E | E];
    cbn zeta in E; fold w' in E; rewrite E; [done|].
  cbn. by rewrite !lookup_delete_ne by done.
Qed.

Lemma resolved_response_touches_own_records_witness :
  let kwargs := mkResp "SM1" 1 (PyStr "ESME_ROK") in
  let w := example_worker
             [("1", "m1"); ("message_json#m1", "m1");
              ("2", "m2"); ("message_json#m2", "m2")] false in
  let w' := exec (submit_sm_resp example_from_json kwargs) w in
  kv (redis w) !! str 1 = Some "m1" ∧
  kv (redis w') !! str 2 = Some "m2" ∧
  kv (redis w') !! r_message_key "m2" = Some "m2".
Proof.
  intros kwargs w w'. split; [reflexivity|]. split.
  - apply (resolved_response_touches_own_records example_from_json kwargs w
             "m1" (str 2)); [reflexivity | discriminate..].
  - apply (resolved_response_touches_own_records example_from_json kwargs w
             "m1" (r_message_key "m2")); [reflexivity | discriminate..].
Defined.

(** ** Delivery reports and inbound messages *)

Lemma delivery_report_found strptime report w id date :
  strptime (dr_done_date report) "%y%m%d%H%M%S" = Some date →
  kv (redis w) !! r_third_party_id_key (dr_id report) = Some id →
  delivery_report strptime report w =
  (Ok tt,
   upd w (redis w) (throttled w)
     [log MSG "PUBLISHING DELIV REPORT: %s %s"
        [arg_str id; arg_str (delivery_status (dr_stat report))];
      publish_delivery_report id (delivery_status (dr_stat report))
        {| rm_message := report; rm_date := date |}]).
Proof.
  intros Hdate Hid. unfold delivery_report, r_get_id_for_third_party_id.
  unfold_monad. rewrite Hdate, Hid. by rewrite upd_upd.
Qed.

(** X5: a delivery report does not use up the third party id.  With the id
    bound and the done date parsed, the report is published for the user
    message id with the mapped status, the parsed groups and the date; the
    same report a second time is published a second time, the same way. *)
Theorem delivery_report_is_published_each_time
  (strptime : string → string → option datetime)
  (report : delivery_report_dict) (w : SmppTransport)
  (id : string) (date : datetime) :
  strptime (dr_done_date report) "%y%m%d%H%M%S" = Some date →
  kv (redis w) !! r_third_party_id_key (dr_id report) = Some id →
  let published :=
    [log MSG "PUBLISHING DELIV REPORT: %s %s"
       [arg_str id; arg_str (delivery_status (dr_stat report))];
     publish_delivery_report id (delivery_status (dr_stat report))
       {| rm_message := report; rm_date := date |}] in
  let w1 := exec (delivery_report strptime report) w in
  let w2 := exec (delivery_report strptime report) w1 in
  trace w1 = trace w ++ published ∧
  trace w2 = trace w ++ published ++ published ∧
  redis w2 = redis w.
Proof.
  intros Hdate Hid published w1 w2. subst w1 w2. unfold exec.
  rewrite (delivery_report_found _ _ _ _ _ Hdate Hid). cbn [snd].
  rewrite (delivery_report_found _ _ _ id _ Hdate) by exact Hid.
  cbn. by rewrite <- app_assoc.
Qed.

Lemma delivery_report_is_published_each_time_witness :
  let report := mkReport "SM1" "001" "001" "130101120000" "130101120500"
                  "DELIVRD" "000" "hi" in
  let w := example_worker [("3rd_party_id#SM1", "m1")] false in
  let date := {| dt_year := 2013; dt_month := 1; dt_day := 1;
                 dt_hour := 12; dt_minute := 5; dt_second := 0 |} in
  example_strptime "130101120500" "%y%m%d%H%M%S" = Some date ∧
  kv (redis w) !! r_third_party_id_key "SM1" = Some "m1" ∧
  trace (exec (delivery_report example_strptime report) w) =
    [log MSG "PUBLISHING DELIV REPORT: %s %s" [arg_str "m1"; arg_str "delivered"];
     publish_delivery_report "m1" "delivered"
       {| rm_message := report; rm_date := date |}].
Proof.
  intros report w date. split; [reflexivity|]. split; [reflexivity|].
  apply (delivery_report_is_published_each_time example_strptime report w
           "m1" date); reflexivity.
Defined.

(** X6: the two inbound handlers never write.  Whatever [deliver_sm] and
    [delivery_report] are called with, and whether they return or raise, the
    store, the [throttled] flag and the sequence counter of the client are
    as before, and the trace has only grown. *)
Theorem inbound_handlers_never_write
  (strptime : string → string → option datetime)
  (kwargs : deliver_sm_kwargs) (report : delivery_report_dict)
  (w : SmppTransport) :
  let w1 := exec (deliver_sm kwargs) w in
  let w2 := exec (delivery_report strptime report) w in
  (redis w1 = redis w ∧ throttled w1 = throttled w ∧
   esme_sequence w1 = esme_sequence w ∧ ∃ es, trace w1 = trace w ++ es) ∧
  (redis w2 = redis w ∧ throttled w2 = throttled w ∧
   esme_sequence w2 = esme_sequence w ∧ ∃ es, trace w2 = trace w ++ es).
Proof.
  cbn zeta. unfold exec. split.
  - unfold deliver_sm. destruct (String.eqb _ "ussd").
    + unfold_monad. destruct (dk_session_event kwargs) as [ev|].
      * destruct (session_events !! ev); cbn.
        -- repeat split; try done. eexists. by rewrite <- app_assoc.
        -- repeat split; try done. exists []. by rewrite app_nil_r.
      * cbn. repeat split; try done. exists []. by rewrite app_nil_r.
    + unfold_monad. repeat split; try done. eexists. by rewrite <- app_assoc.
  - unfold delivery_report, r_get_id_for_third_party_id. unfold_monad.
    destruct (strptime _ _).
    + destruct (kv (redis w) !! _); cbn; repeat split; try done;
        eexists; by rewrite <- ?app_assoc.
    + cbn. repeat split; try done. exists []. by rewrite app_nil_r.
Qed.

(** X7: the id the SMSC gives in a submit_sm_resp is the id its delivery
    report is matched on.  Once a response whose sequence number resolves
    has been handled, a delivery report carrying the [message_id] of that
    response (and a done date that parses) is published for the user message
    id the sequence number stood for. *)
Theorem delivery_report_correlates_with_response
  (from_json : string → Message)
  (strptime : string → string → option datetime)
  (kwargs : submit_sm_resp_kwargs) (report : delivery_report_dict)
  (w : SmppTransport) (id : string) (date : datetime) :
  kv (redis w) !! str (resp_sequence_number kwargs) = Some id →
  dr_id report = resp_message_id kwargs →
  strptime (dr_done_date report) "%y%m%d%H%M%S" = Some date →
  let w1 := exec (submit_sm_resp from_json kwargs) w in
  let w2 := exec (delivery_report strptime report) w1 in
  trace w2 = trace w1 ++
    [log MSG "PUBLISHING DELIV REPORT: %s %s"
       [arg_str id; arg_str (delivery_status (dr_stat report))];
     publish_delivery_report id (delivery_status (dr_stat report))
       {| rm_message := report; rm_date := date |}].
Proof.
  intros Hseq Hid Hdate w1 w2.
  assert (Hbound : kv (redis w1) !! r_third_party_id_key (dr_id report) = Some id).
  { rewrite Hid.
    destruct (submit_sm_resp_store from_json kwargs w id Hseq) as [E | E];
      cbn zeta in E; fold w1 in E; rewrite E.
    - apply kv_correlated_third_party_id.
    - cbn. rewrite lookup_delete_ne by apply message_key_ne_third_party_id_key.
      apply kv_correlated_third_party_id. }
  subst w2. unfold exec at 1.
  by rewrite (delivery_report_found _ _ _ _ _ Hdate Hbound).
Qed.

Lemma delivery_report_correlates_with_response_witness :
  let kwargs := mkResp "SM1" 1 (PyStr "ESME_ROK") in
  let report := mkReport "SM1" "001" "001" "130101120000" "130101120500"
                  "DELIVRD" "000" "hi" in
  let w := example_worker [("1", "m1"); ("message_json#m1", "m1")] false in
  let date := {| dt_year := 2013; dt_month := 1; dt_day := 1;
                 dt_hour := 12; dt_minute := 5; dt_second := 0 |} in
  let w1 := exec (submit_sm_resp example_from_json kwargs) w in
  let w2 := exec (delivery_report example_strptime report) w1 in
  kv (redis w) !! str 1 = Some "m1" ∧
  trace w2 = trace w1 ++
    [log MSG "PUBLISHING DELIV REPORT: %s %s" [arg_str "m1"; arg_str "delivered"];
     publish_delivery_report "m1" "delivered"
       {| rm_message := report; rm_date := date |}].
Proof.
  intros kwargs report w date w1 w2. split; [reflexivity|].
  apply (delivery_report_correlates_with_response example_from_json
           example_strptime kwargs report w "m1" date); reflexivity.
Defined.

(** ** The outbound path *)

Lemma counter_key_ne_str (n : Z) : sequence_counter_key ≠ str n.
Proof.
  intros E. destruct (str_shape n) as [D | [s D]]; rewrite <- E in D;
    cbn in D; discriminate.
Qed.

Lemma counter_key_ne_message_key (id : string) :
  sequence_counter_key ≠ r_message_key id.
Proof. cbn. discriminate. Qed.

Lemma counter_key_ne_third_party_id_key (id : string) :
  sequence_counter_key ≠ r_third_party_id_key id.
Proof. cbn. discriminate. Qed.

Lemma stored_sequence_set_other key value r :
  key ≠ sequence_counter_key →
  stored_sequence (store_set key value r) = stored_sequence r.
Proof.
  intros Hne. unfold stored_sequence, store_set. cbn [kv].
  by rewrite lookup_insert_ne.
Qed.

Lemma stored_sequence_set_counter (n : Z) r :
  stored_sequence (store_set sequence_counter_key (str n) r) = n.
Proof.
  unfold stored_sequence, store_set. cbn [kv]. rewrite lookup_insert_eq.
  destruct (to_int_not_nil n) as [Hp Hn]. unfold str.
  rewrite (NilZero.isi _ Hp Hn). apply DecimalZ.of_to.
Qed.

Lemma stored_sequence_correlated kwargs id w :
  stored_sequence (correlated kwargs id w) = esme_sequence w.
Proof.
  unfold stored_sequence, esme_sequence.
  destruct (correlated_frame kwargs id w sequence_counter_key) as [-> _];
    [apply counter_key_ne_str | apply counter_key_ne_third_party_id_key | done].
Qed.

Lemma submit_outbound_message_eq get_operator_number message w :
  oversize (config w) (content (payload message)) = false →
  _submit_outbound_message get_operator_number message w =
  (Ok tt, submitted get_operator_number message (redis w) w []).
Proof.
  intros Hfits. unfold _submit_outbound_message, mbind, M_bind.
  rewrite send_smpp_eq. cbn zeta. rewrite Hfits.
  unfold r_set_id_for_sequence, redis_set, with_redis, submitted.
  by rewrite upd_upd.
Qed.

Lemma handle_outbound_message_eq to_json get_unacked_count get_operator_number
  message w :
  oversize (config w) (content (payload message)) = false →
  handle_outbound_message to_json get_unacked_count get_operator_number message w =
  (Ok tt,
   submitted get_operator_number message
     (store_set (r_message_key (message_id (payload message))) (to_json message)
        (redis w))
     w
     [log DEBUG "Consumed outgoing message %r" [arg_message message];
      log DEBUG "Unacknowledged message count: %s"
        [arg_int
           (get_unacked_count
              (upd w (redis w) (throttled w)
                 [log DEBUG "Consumed outgoing message %r" [arg_message message]]))]]).
Proof.
  intros Hfits. unfold handle_outbound_message, r_set_message, mbind, M_bind.
  unfold redis_set, with_redis, emit. cbn [fst snd].
  rewrite !upd_upd. rewrite submit_outbound_message_eq by exact Hfits.
  unfold submitted, esme_sequence. cbn [redis upd throttled config].
  rewrite stored_sequence_set_other
    by (intros E; symmetry in E; by apply counter_key_ne_message_key in E).
  by rewrite upd_upd.
Qed.

Lemma submit_sm_resp_ok from_json kwargs w id :
  kv (redis w) !! str (resp_sequence_number kwargs) = Some id →
  resp_command_status kwargs = PyStr "ESME_ROK" →
  submit_sm_resp from_json kwargs w =
  (Ok tt,
   upd w (store_delete (r_message_key id) (correlated kwargs id w)) false
     ([log DEBUG "Mapping transport_msg_id=%s to sent_sms_id=%s"
         [arg_str (resp_message_id kwargs); arg_str id];
       log DEBUG "PUBLISHING ACK: (%s -> %s)"
         [arg_str id; arg_str (resp_message_id kwargs)];
       publish_ack id (resp_message_id kwargs)] ++ stop_calls w)).
Proof.
  intros Hseq Hok. rewrite (submit_sm_resp_resolved _ _ _ _ Hseq). cbn zeta.
  by rewrite bool_decide_eq_true_2 by done.
Qed.

Lemma submit_sm_resp_throttled from_json kwargs w id :
  kv (redis w) !! str (resp_sequence_number kwargs) = Some id →
  resp_command_status kwargs = PyStr "ESME_RTHROTTLED" →
  submit_sm_resp from_json kwargs w =
  (Ok tt,
   upd w (correlated kwargs id w) true
     (start_calls w ++
      [match stored_message from_json (redis w) id with
       | None => log ERR "Could not retrieve throttled message:%s" [arg_str id]
       | Some message =>
           callLater (throttle_delay (config w))
             (cb_submit_outbound_message message)
       end])).
Proof.
  intros Hseq Hthr. rewrite (submit_sm_resp_resolved _ _ _ _ Hseq). cbn zeta.
  rewrite Hthr. rewrite bool_decide_eq_false_2 by done.
  rewrite bool_decide_eq_true_2 by done.
  by rewrite stored_message_correlated.
Qed.

(** X8: [handle_outbound_message] stores before it sends and binds after.
    For a message the client accepts (at most 254 octets, or
    [send_long_messages] set): when the handler returns, the serialized
    message is under its message key, the message id is under the sequence
    number the client has just handed out, one [submit_sm] has been issued,
    and [r_get_message] reads the body back (for a serialization that is not
    the empty string).  The flag is as it was. *)
Theorem outbound_message_is_stored_and_bound
  (to_json : Message → string) (from_json : string → Message)
  (get_unacked_count : SmppTransport → Z)
  (get_operator_number :
     string → string → list (string * prefix_tree) → gmap string string → pyval)
  (message : Message) (w : SmppTransport) :
  oversize (config w) (content (payload message)) = false →
  let id := message_id (payload message) in
  let sequence_number := next_sequence_number (esme_sequence w) in
  let w' := exec (handle_outbound_message to_json get_unacked_count
                    get_operator_number message) w in
  kv (redis w') !! r_message_key id = Some (to_json message) ∧
  kv (redis w') !! str sequence_number = Some id ∧
  (∃ count,
     trace w' = trace w ++
       [log DEBUG "Consumed outgoing message %r" [arg_message message];
        log DEBUG "Unacknowledged message count: %s" [arg_int count];
        log DEBUG "Sending SMPP message: %s" [arg_message message];
        esme_submit_sm (submit_sm_args_of get_operator_number (config w) message)]) ∧
  (to_json message ≠ "" →
   r_get_message from_json id w' = (Ok (Some (from_json (to_json message))), w')) ∧
  throttled w' = throttled w.
Proof.
  intros Hfits id sequence_number w'. subst w'. unfold exec.
  rewrite handle_outbound_message_eq by exact Hfits. cbn [snd].
  assert (Hbody : kv (redis (submitted get_operator_number message
            (store_set (r_message_key id) (to_json message) (redis w)) w
            [log DEBUG "Consumed outgoing message %r" [arg_message message];
             log DEBUG "Unacknowledged message count: %s"
               [arg_int (get_unacked_count
                  (upd w (redis w) (throttled w)
                     [log DEBUG "Consumed outgoing message %r"
                        [arg_message message]]))]]))
          !! r_message_key id = Some (to_json message)).
  { cbn. rewrite lookup_insert_ne by apply str_ne_message_key.
    rewrite lookup_insert_ne by apply counter_key_ne_message_key.
    apply lookup_insert_eq. }
  split; [exact Hbody|]. split; [cbn; apply lookup_insert_eq|].
  split; [eexists; reflexivity|]. split; [|done].
  intros Hne. rewrite r_get_message_eq.
  by rewrite (stored_message_present _ _ _ _ Hbody Hne).
Qed.

Lemma outbound_message_is_stored_and_bound_witness :
  let message := example_from_json "m1" in
  let w := example_worker [] false in
  let w' := exec (handle_outbound_message example_to_json no_unacked
                    no_operator_number message) w in
  oversize (config w) (content (payload message)) = false ∧
  example_to_json message ≠ "" ∧
  kv (redis w') !! "message_json#m1" = Some "m1" ∧
  kv (redis w') !! "1" = Some "m1" ∧
  r_get_message example_from_json "m1" w' = (Ok (Some message), w').
Proof.
  intros message w w'.
  assert (Hfits : oversize (config w) (content (payload message)) = false)
    by reflexivity.
  destruct (outbound_message_is_stored_and_bound example_to_json
              example_from_json no_unacked no_operator_number message w Hfits)
    as (Hbody & Hseq & _ & Hread & _).
  split; [exact Hfits|].
  split; [discriminate|]. split; [exact Hbody|]. split; [exact Hseq|].
  apply Hread. discriminate.
Defined.

(** X9: an outbound message and the ESME_ROK response to it.  For a message
    the client accepts: after [handle_outbound_message], the response
    carrying the sequence number the client handed out is resolved: one ack
    for the message id of the message, with the SMSC's id, is published; the
    body and the sequence entry are deleted; the SMSC's id is bound to the
    message id with the configured expiry. *)
Theorem outbound_message_is_acked
  (to_json : Message → string) (from_json : string → Message)
  (get_unacked_count : SmppTransport → Z)
  (get_operator_number :
     string → string → list (string * prefix_tree) → gmap string string → pyval)
  (message : Message) (smsc_id : string) (w : SmppTransport) :
  oversize (config w) (content (payload message)) = false →
  let id := message_id (payload message) in
  let sequence_number := next_sequence_number (esme_sequence w) in
  let w1 := exec (handle_outbound_message to_json get_unacked_count
                    get_operator_number message) w in
  let w2 := exec (submit_sm_resp from_json
                    (mkResp smsc_id sequence_number (PyStr "ESME_ROK"))) w1 in
  trace w2 = trace w1 ++
    [log DEBUG "Mapping transport_msg_id=%s to sent_sms_id=%s"
       [arg_str smsc_id; arg_str id];
     log DEBUG "PUBLISHING ACK: (%s -> %s)" [arg_str id; arg_str smsc_id];
     publish_ack id smsc_id] ++ stop_calls w ∧
  kv (redis w2) !! r_message_key id = None ∧
  kv (redis w2) !! str sequence_number = None ∧
  kv (redis w2) !! r_third_party_id_key smsc_id = Some id ∧
  ttl (redis w2) !! r_third_party_id_key smsc_id
    = Some (third_party_id_expiry (config w)).
Proof.
  intros Hfits id sequence_number w1 w2.
  set (kwargs := mkResp smsc_id sequence_number (PyStr "ESME_ROK")) in *.
  assert (Hw1 : w1 = submitted get_operator_number message
            (store_set (r_message_key id) (to_json message) (redis w)) w
            [log DEBUG "Consumed outgoing message %r" [arg_message message];
             log DEBUG "Unacknowledged message count: %s"
               [arg_int (get_unacked_count
                  (upd w (redis w) (throttled w)
                     [log DEBUG "Consumed outgoing message %r"
                        [arg_message message]]))]]).
  { subst w1. unfold exec. by rewrite handle_outbound_message_eq by exact Hfits. }
  assert (Hseq : kv (redis w1) !! str (resp_sequence_number kwargs) = Some id).
  { rewrite Hw1. cbn. apply lookup_insert_eq. }
  assert (Hflag : throttled w1 = throttled w) by (by rewrite Hw1).
  assert (Hcfg : config w1 = config w) by (by rewrite Hw1).
  subst w2. unfold exec.
  rewrite (submit_sm_resp_ok _ _ _ _ Hseq eq_refl). cbn [snd].
  unfold stop_calls. rewrite Hflag. cbn [trace redis upd kv ttl store_delete].
  split; [done|]. split; [apply lookup_delete_eq|].
  split; [|split].
  - rewrite lookup_delete_ne
      by (intros E; symmetry in E; by apply str_ne_message_key in E).
    apply (kv_correlated_sequence kwargs).
  - rewrite lookup_delete_ne by apply message_key_ne_third_party_id_key.
    apply (kv_correlated_third_party_id kwargs).
  - rewrite lookup_delete_ne by apply message_key_ne_third_party_id_key.
    rewrite <- Hcfg. apply (ttl_correlated_third_party_id kwargs).
Qed.

Lemma outbound_message_is_acked_witness :
  let message := example_from_json "m1" in
  let w := example_worker [] false in
  let w1 := exec (handle_outbound_message example_to_json no_unacked
                    no_operator_number message) w in
  let w2 := exec (submit_sm_resp example_from_json
                    (mkResp "SM1" 1 (PyStr "ESME_ROK"))) w1 in
  oversize (config w) (content (payload message)) = false ∧
  trace w2 = trace w1 ++
    [log DEBUG "Mapping transport_msg_id=%s to sent_sms_id=%s"
       [arg_str "SM1"; arg_str "m1"];
     log DEBUG "PUBLISHING ACK: (%s -> %s)" [arg_str "m1"; arg_str "SM1"];
     publish_ack "m1" "SM1"] ∧
  kv (redis w2) !! r_message_key "m1" = None ∧
  kv (redis w2) !! str 1 = None ∧
  kv (redis w2) !! r_third_party_id_key "SM1" = Some "m1" ∧
  ttl (redis w2) !! r_third_party_id_key "SM1" = Some 604800%Z.
Proof.
  intros message w w1 w2.
  assert (Hfits : oversize (config w) (content (payload message)) = false)
    by reflexivity.
  split; [exact Hfits|].
  exact (outbound_message_is_acked example_to_json example_from_json no_unacked
           no_operator_number message "SM1" w Hfits).
Defined.

(** X10: throttle, then recover.  An outbound message the client accepts is
    handled by a worker that is not throttled, and the SMSC answers
    ESME_RTHROTTLED.  The worker pauses the connectors and hands the stored
    message to [callLater]; the body stays in the store.  When the reactor
    runs that call, the message is submitted again and bound to the next
    sequence number.  The ESME_ROK response to the second submit resumes the
    connectors, publishes the ack for the message id and deletes the body.
    The codec is taken to read back what it wrote. *)
Theorem throttled_message_is_resubmitted_and_acked
  (to_json : Message → string) (from_json : string → Message)
  (get_unacked_count : SmppTransport → Z)
  (get_operator_number :
     string → string → list (string * prefix_tree) → gmap string string → pyval)
  (message : Message) (first_id smsc_id : string) (w : SmppTransport) :
  oversize (config w) (content (payload message)) = false →
  from_json (to_json message) = message →
  to_json message ≠ "" →
  throttled w = false →
  let id := message_id (payload message) in
  let first := next_sequence_number (esme_sequence w) in
  let second := next_sequence_number first in
  let w1 := exec (handle_outbound_message to_json get_unacked_count
                    get_operator_number message) w in
  let w2 := exec (submit_sm_resp from_json
                    (mkResp first_id first (PyStr "ESME_RTHROTTLED"))) w1 in
  let w3 := exec (run_callback get_operator_number
                    (cb_submit_outbound_message message)) w2 in
  let w4 := exec (submit_sm_resp from_json
                    (mkResp smsc_id second (PyStr "ESME_ROK"))) w3 in
  (trace w2 = trace w1 ++
     [log ERR "Throttling outbound messages." []; pause_connectors;
      callLater (throttle_delay (config w)) (cb_submit_outbound_message message)] ∧
   throttled w2 = true ∧
   kv (redis w2) !! r_message_key id = Some (to_json message)) ∧
  (trace w3 = trace w2 ++
     [log DEBUG "Sending SMPP message: %s" [arg_message message];
      esme_submit_sm (submit_sm_args_of get_operator_number (config w) message)] ∧
   kv (redis w3) !! str second = Some id) ∧
  (trace w4 = trace w3 ++
     [log DEBUG "Mapping transport_msg_id=%s to sent_sms_id=%s"
        [arg_str smsc_id; arg_str id];
      log DEBUG "PUBLISHING ACK: (%s -> %s)" [arg_str id; arg_str smsc_id];
      publish_ack id smsc_id;
      log ERR "No longer throttling outbound messages." [];
      unpause_connectors] ∧
   throttled w4 = false ∧
   kv (redis w4) !! r_message_key id = None).
Proof.
  intros Hfits Hcodec Hne Hflag id first second w1 w2 w3 w4.
  set (kw1 := mkResp first_id first (PyStr "ESME_RTHROTTLED")) in *.
  set (kw2 := mkResp smsc_id second (PyStr "ESME_ROK")) in *.
  (* after the submit *)
  assert (Hw1 : w1 = submitted get_operator_number message
            (store_set (r_message_key id) (to_json message) (redis w)) w
            [log DEBUG "Consumed outgoing message %r" [arg_message message];
             log DEBUG "Unacknowledged message count: %s"
               [arg_int (get_unacked_count
                  (upd w (redis w) (throttled w)
                     [log DEBUG "Consumed outgoing message %r"
                        [arg_message message]]))]]).
  { subst w1. unfold exec. by rewrite handle_outbound_message_eq by exact Hfits. }
  assert (Hseq1 : kv (redis w1) !! str (resp_sequence_number kw1) = Some id).
  { rewrite Hw1. cbn. apply lookup_insert_eq. }
  assert (Hbody1 : kv (redis w1) !! r_message_key id = Some (to_json message)).
  { rewrite Hw1. cbn. rewrite lookup_insert_ne by apply str_ne_message_key.
    rewrite lookup_insert_ne by apply counter_key_ne_message_key.
    apply lookup_insert_eq. }
  assert (Hflag1 : throttled w1 = false) by (rewrite Hw1; exact Hflag).
  assert (Hcfg1 : config w1 = config w) by (by rewrite Hw1).
  assert (Hesme1 : esme_sequence w1 = first).
  { rewrite Hw1. unfold esme_sequence, submitted. cbn [redis upd].
    rewrite stored_sequence_set_other
      by (intros E; symmetry in E; by apply counter_key_ne_str in E).
    apply stored_sequence_set_counter. }
  (* the throttled response *)
  assert (Hw2 : w2 = upd w1 (correlated kw1 id w1) true
            [log ERR "Throttling outbound messages." []; pause_connectors;
             callLater (throttle_delay (config w))
               (cb_submit_outbound_message message)]).
  { subst w2. unfold exec.
    rewrite (submit_sm_resp_throttled _ _ _ _ Hseq1 eq_refl). cbn [snd].
    rewrite (stored_message_present _ _ _ _ Hbody1 Hne), Hcodec, Hcfg1.
    unfold start_calls. by rewrite Hflag1. }
  assert (Hbody2 : kv (redis w2) !! r_message_key id = Some (to_json message)).
  { rewrite Hw2. cbn [redis upd]. by rewrite kv_correlated_message_key. }
  assert (Hesme2 : esme_sequence w2 = first).
  { rewrite Hw2. unfold esme_sequence at 1. cbn [redis upd].
    by rewrite stored_sequence_correlated. }
  assert (Hcfg2 : config w2 = config w) by (by rewrite Hw2).
  (* the scheduled call *)
  assert (Hw3 : w3 = submitted get_operator_number message (redis w2) w2 []).
  { subst w3. unfold exec, run_callback.
    rewrite submit_outbound_message_eq; [done|]. by rewrite Hcfg2. }
  assert (Hseq3 : kv (redis w3) !! str (resp_sequence_number kw2) = Some id).
  { rewrite Hw3. unfold submitted. rewrite Hesme2. cbn. apply lookup_insert_eq. }
  assert (Hflag3 : throttled w3 = true) by (by rewrite Hw3, Hw2).
  (* the second response *)
  assert (Hw4 : w4 = upd w3 (store_delete (r_message_key id) (correlated kw2 id w3))
            false
            [log DEBUG "Mapping transport_msg_id=%s to sent_sms_id=%s"
               [arg_str smsc_id; arg_str id];
             log DEBUG "PUBLISHING ACK: (%s -> %s)" [arg_str id; arg_str smsc_id];
             publish_ack id smsc_id;
             log ERR "No longer throttling outbound messages." [];
             unpause_connectors]).
  { subst w4. unfold exec.
    rewrite (submit_sm_resp_ok _ _ _ _ Hseq3 eq_refl). cbn [snd].
    unfold stop_calls. by rewrite Hflag3. }
  split; [|split].
  - split; [by rewrite Hw2|]. split; [by rewrite Hw2|exact Hbody2].
  - split; [|exact Hseq3]. rewrite Hw3. unfold submitted. cbn. by rewrite Hcfg2.
  - split; [by rewrite Hw4|]. split; [by rewrite Hw4|].
    rewrite Hw4. cbn. apply lookup_delete_eq.
Qed.

Lemma throttled_message_is_resubmitted_and_acked_witness :
  let message := example_from_json "m2" in
  let w := example_worker [] false in
  let w1 := exec (handle_outbound_message example_to_json no_unacked
                    no_operator_number message) w in
  let w2 := exec (submit_sm_resp example_from_json
                    (mkResp "" 1 (PyStr "ESME_RTHROTTLED"))) w1 in
  let w3 := exec (run_callback no_operator_number
                    (cb_submit_outbound_message message)) w2 in
  let w4 := exec (submit_sm_resp example_from_json
                    (mkResp "SM2" 2 (PyStr "ESME_ROK"))) w3 in
  oversize (config w) (content (payload message)) = false ∧
  example_from_json (example_to_json message) = message ∧
  bus_calls (trace w4) = [pause_connectors; unpause_connectors] ∧
  In (publish_ack "m2" "SM2") (trace w4) ∧
  kv (redis w4) !! r_message_key "m2" = None.
Proof.
  intros message w w1 w2 w3 w4.
  assert (Hfits : oversize (config w) (content (payload message)) = false)
    by reflexivity.
  assert (Hcodec : example_from_json (example_to_json message) = message)
    by reflexivity.
  split; [exact Hfits|]. split; [exact Hcodec|].
  destruct (throttled_message_is_resubmitted_and_acked example_to_json
              example_from_json no_unacked no_operator_number message "" "SM2" w
              Hfits Hcodec) as (_ & _ & Hack & _ & Hgone);
    [discriminate | reflexivity |].
  split; [reflexivity|]. split; [|exact Hgone].
  change (trace w4 = trace w3 ++
     [log DEBUG "Mapping transport_msg_id=%s to sent_sms_id=%s"
        [arg_str "SM2"; arg_str "m2"];
      log DEBUG "PUBLISHING ACK: (%s -> %s)" [arg_str "m2"; arg_str "SM2"];
      publish_ack "m2" "SM2";
      log ERR "No longer throttling outbound messages." [];
      unpause_connectors]) in Hack.
  rewrite Hack. apply in_or_app. right. cbn. auto.
Defined.

(** ** Edges of the response handling *)

(** X11: a response without a command status is a terminal failure.  With
    [command_status] [None] or the empty string, and the sequence number
    resolved and the body stored, the nack and the failure record are
    published with the reason 'Unspecified'. *)
Theorem missing_status_fails_as_unspecified
  (from_json : string → Message) (kwargs : submit_sm_resp_kwargs)
  (w : SmppTransport) (id body : string) :
  kv (redis w) !! str (resp_sequence_number kwargs) = Some id →
  resp_command_status kwargs = PyNone ∨ resp_command_status kwargs = PyStr "" →
  kv (redis w) !! r_message_key id = Some body →
  body ≠ "" →
  trace (exec (submit_sm_resp from_json kwargs) w) = trace w ++
    [publish_nack id (PyStr "Unspecified");
     failure_publish {| fm_message := payload (from_json body);
                        fm_failure_code := PyNone;
                        fm_reason := PyStr "Unspecified" |}] ++ stop_calls w.
Proof.
  intros Hseq Hstatus Hbody Hne. unfold exec.
  rewrite (submit_sm_resp_resolved _ _ _ _ Hseq). cbn zeta.
  rewrite stored_message_correlated, (stored_message_present _ _ _ _ Hbody Hne).
  by destruct Hstatus as [-> | ->].
Qed.

Lemma missing_status_fails_as_unspecified_witness :
  let kwargs := mkResp "" 1 PyNone in
  let w := example_worker [("1", "m1"); ("message_json#m1", "m1")] false in
  kv (redis w) !! str 1 = Some "m1" ∧
  kv (redis w) !! r_message_key "m1" = Some "m1" ∧
  trace (exec (submit_sm_resp example_from_json kwargs) w) =
    [publish_nack "m1" (PyStr "Unspecified");
     failure_publish {| fm_message := example_payload "m1";
                        fm_failure_code := PyNone;
                        fm_reason := PyStr "Unspecified" |}].
Proof.
  intros kwargs w. split; [reflexivity|]. split; [reflexivity|].
  apply (missing_status_fails_as_unspecified example_from_json kwargs w "m1" "m1");
    [reflexivity | left; reflexivity | reflexivity | discriminate].
Defined.

(** X12: a reconnect inside a throttled phase resumes the connectors and
    leaves the flag set.  [esme_disconnected] pauses and [esme_connected]
    resumes without looking at [throttled]; the flag and the store are as
    before.  A throttled response that arrives next finds the flag set and
    does not pause again, so the connectors stay resumed while the worker
    counts itself throttled. *)
Theorem reconnect_inside_throttled_phase
  (from_json : string → Message) (kwargs : submit_sm_resp_kwargs)
  (w : SmppTransport) (id : string) :
  throttled w = true →
  kv (redis w) !! str (resp_sequence_number kwargs) = Some id →
  resp_command_status kwargs = PyStr "ESME_RTHROTTLED" →
  let w1 := exec esme_connected (exec esme_disconnected w) in
  let w2 := exec (submit_sm_resp from_json kwargs) w1 in
  bus_calls (trace w1) = bus_calls (trace w) ++ [pause_connectors; unpause_connectors] ∧
  throttled w1 = true ∧
  redis w1 = redis w ∧
  bus_calls (trace w2) = bus_calls (trace w1) ∧
  throttled w2 = true.
Proof.
  intros Hflag Hseq Hthr w1 w2.
  assert (Hw1 : w1 = upd w (redis w) (throttled w)
            [log MSG "ESME Disconnected" []; pause_connectors;
             log MSG "ESME Connected, adding handlers" []; unpause_connectors]).
  { subst w1. unfold exec, esme_connected, esme_disconnected. unfold_monad.
    by rewrite !upd_upd. }
  assert (Hseq1 : kv (redis w1) !! str (resp_sequence_number kwargs) = Some id)
    by (by rewrite Hw1).
  assert (Hflag1 : throttled w1 = true) by (by rewrite Hw1).
  split; [rewrite Hw1; cbn; by rewrite bus_calls_app|].
  split; [exact Hflag1|]. split; [by rewrite Hw1|].
  subst w2. unfold exec.
  rewrite (submit_sm_resp_throttled _ _ _ _ Hseq1 Hthr). cbn [snd trace upd throttled].
  unfold start_calls. rewrite Hflag1. rewrite bus_calls_app.
  split; [|done].
  destruct (stored_message _ _ _); cbn; by rewrite app_nil_r.
Qed.

Lemma reconnect_inside_throttled_phase_witness :
  let kwargs := mkResp "" 1 (PyStr "ESME_RTHROTTLED") in
  let w := example_worker [("1", "m1"); ("message_json#m1", "m1")] true in
  let w1 := exec esme_connected (exec esme_disconnected w) in
  let w2 := exec (submit_sm_resp example_from_json kwargs) w1 in
  kv (redis w) !! str 1 = Some "m1" ∧
  bus_calls (trace w2) = [pause_connectors; unpause_connectors] ∧
  throttled w2 = true.
Proof.
  intros kwargs w w1 w2. split; [reflexivity|].
  destruct (reconnect_inside_throttled_phase example_from_json kwargs w "m1")
    as (Hcalls1 & _ & _ & Hcalls2 & Hflag2); [reflexivity..|].
  split; [|exact Hflag2].
  fold w1 w2 in Hcalls1, Hcalls2. rewrite Hcalls2, Hcalls1. reflexivity.
Defined.

(** X13: the third party id binding is overwritten, not kept.  When two
    responses with different sequence numbers carry the same SMSC id, both
    resolve, and after the second the id stands for the user message of the
    second; a delivery report with that id goes to the later message. *)
Theorem third_party_id_last_response_wins
  (from_json : string → Message) (first second : submit_sm_resp_kwargs)
  (w : SmppTransport) (id1 id2 : string) :
  kv (redis w) !! str (resp_sequence_number first) = Some id1 →
  kv (redis w) !! str (resp_sequence_number second) = Some id2 →
  resp_sequence_number first ≠ resp_sequence_number second →
  resp_message_id first = resp_message_id second →
  let w1 := exec (submit_sm_resp from_json first) w in
  let w2 := exec (submit_sm_resp from_json second) w1 in
  kv (redis w1) !! r_third_party_id_key (resp_message_id first) = Some id1 ∧
  kv (redis w1) !! str (resp_sequence_number second) = Some id2 ∧
  kv (redis w2) !! r_third_party_id_key (resp_message_id first) = Some id2.
Proof.
  intros Hseq1 Hseq2 Hdiff Hsame w1 w2.
  assert (Hbound : ∀ kwargs v id,
    kv (redis v) !! str (resp_sequence_number kwargs) = Some id →
    kv (redis (exec (submit_sm_resp from_json kwargs) v))
      !! r_third_party_id_key (resp_message_id kwargs) = Some id).
  { intros kwargs v id Hseq.
    destruct (submit_sm_resp_store from_json kwargs v id Hseq) as [E | E];
      cbn zeta in E; rewrite E.
    - apply kv_correlated_third_party_id.
    - cbn. rewrite lookup_delete_ne by apply message_key_ne_third_party_id_key.
      apply kv_correlated_third_party_id. }
  assert (Hkept : kv (redis w1) !! str (resp_sequence_number second) = Some id2).
  { rewrite <- Hseq2.
    destruct (correlated_frame first id1 w (str (resp_sequence_number second)))
      as [Hkv _].
    - intros E. apply str_inj in E. congruence.
    - apply str_ne_third_party_id_key.
    - destruct (submit_sm_resp_store from_json first w id1 Hseq1) as [E | E];
        cbn zeta in E; fold w1 in E; rewrite E; [done|].
      cbn. by rewrite lookup_delete_ne
        by (intros E'; symmetry in E'; by apply str_ne_message_key in E'). }
  split; [by apply Hbound|]. split; [exact Hkept|].
  rewrite Hsame. by apply Hbound.
Qed.

Lemma third_party_id_last_response_wins_witness :
  let first := mkResp "" 1 (PyStr "ESME_RTHROTTLED") in
  let second := mkResp "" 2 (PyStr "ESME_RINVDSTADR") in
  let w := example_worker [("1", "m1"); ("2", "m2")] false in
  let w2 := exec (submit_sm_resp example_from_json second)
              (exec (submit_sm_resp example_from_json first) w) in
  kv (redis w) !! str 1 = Some "m1" ∧
  kv (redis w) !! str 2 = Some "m2" ∧
  kv (redis w2) !! r_third_party_id_key "" = Some "m2".
Proof.
  intros first second w w2. split; [reflexivity|]. split; [reflexivity|].
  apply (third_party_id_last_response_wins example_from_json first second w
           "m1" "m2"); [reflexivity | reflexivity | discriminate | reflexivity].
Defined.

(** X14: the session arguments of an outbound submit.  [send_smpp] logs and
    issues one [submit_sm].  In its arguments [continue_session] is false
    exactly for a message whose session event is CLOSE, [session_info] is the
    entry of the transport metadata, [None] when there is none, and
    [message_type] is the transport type of the message. *)
Theorem send_smpp_session_arguments
  (get_operator_number :
     string → string → list (string * prefix_tree) → gmap string string → pyval)
  (message : Message) (w : SmppTransport) :
  ∃ args,
    trace (exec (send_smpp get_operator_number message) w) = trace w ++
      [log DEBUG "Sending SMPP message: %s" [arg_message message];
       esme_submit_sm args] ∧
    (continue_session args = false ↔
       session_event (payload message) = SESSION_CLOSE) ∧
    session_info args =
      default PyNone (transport_metadata (payload message) !! "session_info") ∧
    message_type args = transport_type (payload message).
Proof.
  unfold exec. rewrite send_smpp_eq. cbn zeta.
  exists (submit_sm_args_of get_operator_number (config w) message).
  split; [by destruct (oversize _ _)|]. cbn.
  split; [|done].
  case_bool_decide as Hclose; split; done.
Qed.

(** X15: an outbound message and a terminal failure of its submit.  For a
    message the client accepts: after [handle_outbound_message], a response with the sequence number the client
    handed out and a status that is neither ESME_ROK nor ESME_RTHROTTLED
    publishes the nack for the message id and one failure record whose
    payload is the payload of the message that was handed in, and deletes
    the body.  The codec is taken to read back what it wrote. *)
Theorem outbound_message_failure_carries_its_payload
  (to_json : Message → string) (from_json : string → Message)
  (get_unacked_count : SmppTransport → Z)
  (get_operator_number :
     string → string → list (string * prefix_tree) → gmap string string → pyval)
  (message : Message) (smsc_id status : string) (w : SmppTransport) :
  oversize (config w) (content (payload message)) = false →
  from_json (to_json message) = message →
  to_json message ≠ "" →
  status ≠ "" → status ≠ "ESME_ROK" → status ≠ "ESME_RTHROTTLED" →
  let id := message_id (payload message) in
  let sequence_number := next_sequence_number (esme_sequence w) in
  let w1 := exec (handle_outbound_message to_json get_unacked_count
                    get_operator_number message) w in
  let w2 := exec (submit_sm_resp from_json
                    (mkResp smsc_id sequence_number (PyStr status))) w1 in
  trace w2 = trace w1 ++
    [publish_nack id (PyStr status);
     failure_publish {| fm_message := payload message;
                        fm_failure_code := PyNone;
                        fm_reason := PyStr status |}] ++ stop_calls w ∧
  kv (redis w2) !! r_message_key id = None.
Proof.
  intros Hfits Hcodec Hne Hstatus Hok Hthr id sequence_number w1 w2.
  set (kwargs := mkResp smsc_id sequence_number (PyStr status)) in *.
  assert (Hw1 : w1 = submitted get_operator_number message
            (store_set (r_message_key id) (to_json message) (redis w)) w
            [log DEBUG "Consumed outgoing message %r" [arg_message message];
             log DEBUG "Unacknowledged message count: %s"
               [arg_int (get_unacked_count
                  (upd w (redis w) (throttled w)
                     [log DEBUG "Consumed outgoing message %r"
                        [arg_message message]]))]]).
  { subst w1. unfold exec. by rewrite handle_outbound_message_eq by exact Hfits. }
  assert (Hseq : kv (redis w1) !! str (resp_sequence_number kwargs) = Some id).
  { rewrite Hw1. cbn. apply lookup_insert_eq. }
  assert (Hbody : kv (redis w1) !! r_message_key id = Some (to_json message)).
  { rewrite Hw1. cbn. rewrite lookup_insert_ne by apply str_ne_message_key.
    rewrite lookup_insert_ne by apply counter_key_ne_message_key.
    apply lookup_insert_eq. }
  assert (Hflag : throttled w1 = throttled w) by (by rewrite Hw1).
  assert (Hreason : py_or (PyStr status) (PyStr "Unspecified") = PyStr status).
  { unfold py_or, truthy. by destruct (String.eqb_spec status ""). }
  subst w2. unfold exec at 1 2.
  rewrite (submit_sm_resp_resolved _ _ _ _ Hseq). cbn zeta.
  cbn [resp_command_status kwargs].
  rewrite !bool_decide_eq_false_2 by congruence.
  rewrite stored_message_correlated, (stored_message_present _ _ _ _ Hbody Hne).
  rewrite Hcodec, Hreason. cbn [snd trace redis upd kv store_delete].
  unfold stop_calls. rewrite Hflag. split; [done|]. apply lookup_delete_eq.
Qed.

Lemma outbound_message_failure_carries_its_payload_witness :
  let message := example_from_json "m1" in
  let w := example_worker [] false in
  let w1 := exec (handle_outbound_message example_to_json no_unacked
                    no_operator_number message) w in
  let w2 := exec (submit_sm_resp example_from_json
                    (mkResp "" 1 (PyStr "ESME_RINVDSTADR"))) w1 in
  oversize (config w) (content (payload message)) = false ∧
  example_from_json (example_to_json message) = message ∧
  trace w2 = trace w1 ++
    [publish_nack "m1" (PyStr "ESME_RINVDSTADR");
     failure_publish {| fm_message := payload message;
                        fm_failure_code := PyNone;
                        fm_reason := PyStr "ESME_RINVDSTADR" |}] ∧
  kv (redis w2) !! r_message_key "m1" = None.
Proof.
  intros message w w1 w2. split; [reflexivity|]. split; [reflexivity|].
  apply (outbound_message_failure_carries_its_payload example_to_json
           example_from_json no_unacked no_operator_number message ""
           "ESME_RINVDSTADR" w); [reflexivity | reflexivity | discriminate..].
Defined.
